(** * pe_clock_speed: best-fit bus and processor speed on 32-bit PowerPC

    A shallow embedding of [pexpert/ppc/pe_clock_speed.c] and the properties
    of its calibration loop.

    The file is compiled for 32-bit PowerPC (ILP32): [int], [long] and
    [unsigned long] are 32 bits wide, [unsigned long long] is 64 bits wide
    (the source says so itself: "Using 64 bit math figure out the raw bus
    speed").  Every C integer is a [Z] here, and every C operation is written
    with the reduction to its width spelled out: two's complement wrap-around
    for [long], reduction modulo a power of two for the unsigned types.
    Division and remainder of [long] round towards zero ([Z.quot]). *)

From Stdlib Require Import ZArith List Bool Lia.
Import ListNotations.

Local Open Scope Z_scope.

(** ** Machine integers *)

Module Int.

(** Value of a 32-bit pattern read as a signed [long]. *)
Definition long (z : Z) : Z := (z + 2 ^ 31) mod 2 ^ 32 - 2 ^ 31.

(** Value of a 32-bit pattern read as [unsigned int] / [unsigned long]. *)
Definition ulong (z : Z) : Z := z mod 2 ^ 32.

(** Value of a 64-bit pattern read as [unsigned long long]. *)
Definition ullong (z : Z) : Z := z mod 2 ^ 64.

Definition add (a b : Z) : Z := long (a + b).
Definition sub (a b : Z) : Z := long (a - b).
Definition mul (a b : Z) : Z := long (a * b).
Definition neg (a : Z) : Z := long (- a).
(** C division truncates towards zero. *)
Definition div (a b : Z) : Z := long (Z.quot a b).

(** [if (diff < 0) diff = -diff;] *)
Definition abs (a : Z) : Z := if a <? 0 then neg a else a.

Definition in_long (z : Z) : Prop := - 2 ^ 31 <= z < 2 ^ 31.

End Int.

(** ** Data *)

(** [#define kMaxFreqDiff (30000)]: threshold for bus speed matches. *)
Definition kMaxFreqDiff : Z := 30000.

(** [struct clock_test_data]: what [pe_run_clock_test] hands back.  The
    [via_addr] member is only an address passed through to the assembly
    routine and plays no part in the arithmetic. *)
Record clock_test_data : Type := mk_sample {
  via_ticks : Z;   (* unsigned int *)
  dec_ticks : Z    (* unsigned int *)
}.

(** [static long bus_freq_num, bus_freq_den, cpu_pll;] *)
Record globals : Type := mk_globals {
  bus_freq_num : Z;
  bus_freq_den : Z;
  cpu_pll : Z
}.

Definition set_bus_freq (g : globals) (num den : Z) : globals :=
  {| bus_freq_num := num; bus_freq_den := den; cpu_pll := cpu_pll g |}.

Definition set_cpu_pll (g : globals) (pll : Z) : globals :=
  {| bus_freq_num := bus_freq_num g; bus_freq_den := bus_freq_den g;
     cpu_pll := pll |}.

(** The speed table: [speed_list[2*cnt]] is a numerator, [speed_list[2*cnt+1]]
    its denominator, [num_speeds] the number of pairs.  A list of pairs of
    [unsigned long] values, [num_speeds] being its length. *)
Definition speed_table : Type := list (Z * Z).

(** Modelled from the spec: the declaration of [gPEClockFrequencyInfo]
    ([clock_frequency_info_t] of pexpert/pexpert.h) is not part of the
    sources at hand.  The record has the nine members the source assigns;
    each is taken to be an [unsigned long], the type of the temporaries
    [tmp_bus_speed] and [tmp_cpu_speed] stored into them. *)
Record clock_frequency_info : Type := mk_info {
  bus_clock_rate_hz : Z;
  cpu_clock_rate_hz : Z;
  dec_clock_rate_hz : Z;
  bus_clock_rate_num : Z;
  bus_clock_rate_den : Z;
  bus_to_cpu_rate_num : Z;
  bus_to_cpu_rate_den : Z;
  bus_to_dec_rate_num : Z;
  bus_to_dec_rate_den : Z
}.

(** ** One pass of the loop body of [pe_do_clock_test] *)

(** Lines 113-114: the pll mode.  [10000000 / dec_ticks] is an unsigned
    division (the [int] constant is converted to [unsigned int]); the
    quotient is stored in the [long] [cpu_pll]. *)
Definition pll_mode (dec : Z) : Z :=
  let pll := Int.long (10000000 / dec) in
  Int.add (Int.div pll 2) (Z.land pll 1).

(** Lines 118-119: the raw bus speed.  The product and the quotient are
    [unsigned long long]; the shifted value is stored in the [long]
    [raw_bus_freq]. *)
Definition raw_bus_speed (via dec : Z) : Z :=
  Int.long (Z.shiftr (Int.ullong (0xBF401675E5D * dec) / via) 22).

(** Line 122: [raw_cpu_freq = raw_bus_freq * cpu_pll / 2].  The value is
    computed and never read again. *)
Definition raw_cpu_speed (raw pll : Z) : Z :=
  Int.div (Int.mul raw pll) 2.

(** Lines 129-132: the test made on one table entry, once the entry has been
    loaded into the two [long] globals. *)
Definition close_enough (raw num den : Z) : bool :=
  Int.abs (Int.sub num (Int.mul raw den)) <? Int.mul kMaxFreqDiff den.

(** Lines 126-133: the [for] loop over the table.  Every entry visited is
    written to [bus_freq_num] and [bus_freq_den], whether it matches or not;
    the flag tells whether the loop was left by [break], that is whether
    [cnt != num_speeds] holds afterwards. *)
Fixpoint scan_speed_list (raw : Z) (speed_list : speed_table) (g : globals)
  : bool * globals :=
  match speed_list with
  | [] => (false, g)
  | (n, d) :: rest =>
      let g1 := set_bus_freq g (Int.long n) (Int.long d) in
      if close_enough raw (bus_freq_num g1) (bus_freq_den g1)
      then (true, g1)
      else scan_speed_list raw rest g1
  end.

(** Line 137. *)
Definition half_mhz_guess (raw : Z) : Z :=
  Int.mul (Int.div (Int.add raw 250000) 500000) 500000.

(** Line 149. *)
Definition fifty_thirds_guess (raw : Z) : Z :=
  Int.mul (Int.div (Int.add (Int.mul raw 3) 25000000) 50000000) 50000000.

(** Lines 136-162: what the body does when the table gave nothing. *)
Definition fallback (raw : Z) (g : globals) : globals :=
  let tmp_bus_freq := half_mhz_guess raw in
  let diff := Int.abs (Int.sub tmp_bus_freq raw) in
  if diff <? kMaxFreqDiff then set_bus_freq g tmp_bus_freq 1
  else
    let tmp_bus_freq := fifty_thirds_guess raw in
    let diff := Int.abs (Int.sub tmp_bus_freq (Int.mul raw 3)) in
    if diff <? Int.mul kMaxFreqDiff 3 then set_bus_freq g tmp_bus_freq 3
    else set_bus_freq g raw 1.

(** Lines 124-162: table first, then the fallbacks. *)
Definition fit_bus_freq (speed_list : speed_table) (raw : Z) (g : globals)
  : globals :=
  let (found, g1) := scan_speed_list raw speed_list g in
  if found then g1 else fallback raw g1.

(** Lines 107-162 after the call of [pe_run_clock_test] has filled the
    sample [s].  Dividing by a zero tick count has no defined result:
    [None]. *)
Definition clock_test_body (speed_list : speed_table) (s : clock_test_data)
  (g : globals) : option globals :=
  let dec := Int.ulong (dec_ticks s) in
  let via := Int.ulong (via_ticks s) in
  if dec =? 0 then None
  else if via =? 0 then None
  else
    let g1 := set_cpu_pll g (pll_mode dec) in
    let raw_bus_freq := raw_bus_speed via dec in
    Some (fit_bus_freq speed_list raw_bus_freq g1).

(** ** The loop and its caller *)

Section Engine.

(** [pe_run_clock_test] is an external assembly routine that reads the
    hardware; the sample it writes on its [k]-th call is [run_clock_test k]. *)
Variable run_clock_test : nat -> clock_test_data.
Variable speed_list : speed_table.

(** The [do ... while ((bus_freq_num != last_bus_freq) && tries--)] loop.
    [calls] counts the calls of [pe_run_clock_test] made so far.  The
    post-decrement yields the old value of [tries]: the test succeeds as
    long as [tries] was not yet zero, and the counter only takes the values
    10, 9, ..., 0 before the loop is left, so a [nat] carries it. *)
Fixpoint clock_test_loop (tries : nat) (calls : nat) (g : globals)
  : option (globals * nat) :=
  let last_bus_freq := bus_freq_num g in
  match clock_test_body speed_list (run_clock_test calls) g with
  | None => None
  | Some g1 =>
      if bus_freq_num g1 =? last_bus_freq then Some (g1, S calls)
      else
        match tries with
        | O => Some (g1, S calls)
        | S tries' => clock_test_loop tries' (S calls) g1
        end
  end.

(** [pe_do_clock_test]: [bus_freq_num = 0], [tries = 10], then the loop.
    Returns the globals as the loop leaves them and the number of samples
    taken. *)
Definition pe_do_clock_test (g : globals) : option (globals * nat) :=
  clock_test_loop 10 0 (set_bus_freq g 0 (bus_freq_den g)).

(** Lines 68-87 of [PE_Determine_Clock_Speeds]: the values reported in
    [gPEClockFrequencyInfo].  [bus_freq_num / bus_freq_den] is a [long]
    division; the cpu speed is an [unsigned long long] division by
    [bus_freq_den * 2], itself computed as a [long]. *)
Definition report (g : globals) : option clock_frequency_info :=
  if bus_freq_den g =? 0 then None
  else
    let tmp_bus_speed := Int.ulong (Int.div (bus_freq_num g) (bus_freq_den g)) in
    let divisor := Int.ullong (Int.mul (bus_freq_den g) 2) in
    if divisor =? 0 then None
    else
      let tmp :=
        Int.ullong (Int.ullong (bus_freq_num g) * Int.ullong (cpu_pll g))
        / divisor in
      let tmp_cpu_speed := Int.ulong tmp in
      Some {| bus_clock_rate_num := Int.ulong (bus_freq_num g);
              bus_clock_rate_den := Int.ulong (bus_freq_den g);
              bus_to_cpu_rate_num := Int.ulong (cpu_pll g);
              bus_to_cpu_rate_den := 2;
              bus_to_dec_rate_num := 1;
              bus_to_dec_rate_den := 4;
              bus_clock_rate_hz := tmp_bus_speed;
              cpu_clock_rate_hz := tmp_cpu_speed;
              dec_clock_rate_hz := tmp_bus_speed / 4 |}.

(** [PE_Determine_Clock_Speeds]: run the test, then report.  The result is
    the published record together with the globals left behind.  The calls of
    [ml_set_interrupts_enabled] around the test and the closing
    [PE_call_timebase_callback] do not touch these values and are left out. *)
Definition PE_Determine_Clock_Speeds (g : globals)
  : option (clock_frequency_info * globals) :=
  match pe_do_clock_test g with
  | None => None
  | Some (g1, _) =>
      match report g1 with
      | None => None
      | Some info => Some (info, g1)
      end
  end.

End Engine.

(** ** Derived notions used in the statements *)

(** A table entry is within tolerance of a raw bus speed when the test of
    lines 129-132 succeeds on it. *)
Definition within_tolerance (raw : Z) (e : Z * Z) : bool :=
  close_enough raw (Int.long (fst e)) (Int.long (snd e)).

(** The tick counts of a sample are usable when neither is zero. *)
Definition ticks_ok (s : clock_test_data) : Prop :=
  Int.ulong (dec_ticks s) <> 0 /\ Int.ulong (via_ticks s) <> 0.

(** The raw bus speed and the pll mode the body derives from a sample. *)
Definition sample_raw (s : clock_test_data) : Z :=
  raw_bus_speed (Int.ulong (via_ticks s)) (Int.ulong (dec_ticks s)).

Definition sample_pll (s : clock_test_data) : Z :=
  pll_mode (Int.ulong (dec_ticks s)).

(** What one pass of the body leaves in the globals for a usable sample;
    [body_estimate] below shows that the globals found on entry play no
    part. *)
Definition estimate (speed_list : speed_table) (s : clock_test_data) : globals :=
  fit_bus_freq speed_list (sample_raw s) (mk_globals 0 0 (sample_pll s)).

(** The value [last_bus_freq] holds in pass number [i] (counted from 0) of a
    run that gets that far: 0 in the first pass, the numerator accepted by the
    pass before in the others. *)
Definition last_bus_freq_at (speed_list : speed_table)
  (run_clock_test : nat -> clock_test_data) (i : nat) : Z :=
  match i with
  | O => 0
  | S j => bus_freq_num (estimate speed_list (run_clock_test j))
  end.

(** Every denominator of the table is a positive [long]. *)
Definition speed_list_ok (speed_list : speed_table) : Prop :=
  Forall (fun e => 0 < snd e < 2 ^ 31) speed_list.

(** The multiple of [step] nearest to [x], halves rounded up, over the
    integers. *)
Definition nearest_multiple (step x : Z) : Z :=
  step * ((2 * x + step) / (2 * step)).

(** The tolerance inequality on a table entry [(num, den)], over the
    integers: [|num - raw * den| < 30000 * den]. *)
Definition tolerance_holds (raw : Z) (e : Z * Z) : Prop :=
  Z.abs (fst e - raw * snd e) < kMaxFreqDiff * snd e.

(** A table entry on which the test of lines 129-132 stays within the range
    of [long] for the raw speed [raw]: the numerator is a [long] that is not
    negative, the denominator is not negative, and neither [raw * den] nor
    [30000 * den] leaves the range. *)
Definition entry_in_range (raw : Z) (e : Z * Z) : Prop :=
  0 <= fst e < 2 ^ 31 /\ 0 <= snd e /\ snd e * (raw + 30000) < 2 ^ 31.

(** * Properties *)

(** ** Machine integers *)

Lemma long_in_range (z : Z) : Int.in_long (Int.long z).
Proof.
  unfold Int.in_long, Int.long.
  pose proof (Z.mod_pos_bound (z + 2 ^ 31) (2 ^ 32) ltac:(lia)). lia.
Qed.

Lemma long_small (z : Z) : Int.in_long z -> Int.long z = z.
Proof.
  unfold Int.in_long, Int.long. intros H.
  rewrite Z.mod_small by lia. lia.
Qed.

Lemma nearest_multiple_is_multiple (step x : Z) :
  (step | nearest_multiple step x).
Proof. exists ((2 * x + step) / (2 * step)). unfold nearest_multiple. lia. Qed.

Lemma nearest_multiple_nearest (step x k : Z) :
  0 < step ->
  Z.abs (nearest_multiple step x - x) <= Z.abs (k * step - x).
Proof.
  intros Hs. unfold nearest_multiple.
  pose proof (Z.div_mod (2 * x + step) (2 * step) ltac:(lia)) as E.
  pose proof (Z.mod_pos_bound (2 * x + step) (2 * step) ltac:(lia)) as B.
  set (q := (2 * x + step) / (2 * step)) in *.
  set (r := (2 * x + step) mod (2 * step)) in *.
  assert (C : k <= q - 1 \/ k = q \/ q + 1 <= k) by lia.
  destruct C as [C | [C | C]]; [ | subst k; lia | ]; nia.
Qed.

(** ** The table scan and the fit *)

Ltac conjs := repeat match goal with |- _ /\ _ => split end.

(** Leaving the scan by [break] at the first entry within tolerance. *)
Lemma scan_first_match (raw : Z) (pre post : speed_table) (e : Z * Z)
  (g : globals) :
  Forall (fun x => within_tolerance raw x = false) pre ->
  within_tolerance raw e = true ->
  scan_speed_list raw (pre ++ e :: post) g
  = (true, set_bus_freq g (Int.long (fst e)) (Int.long (snd e))).
Proof.
  intros Hpre He. revert g.
  induction Hpre as [| [n d] pre Hx _ IH]; intros g.
  - destruct e as [n d]. simpl in *. unfold within_tolerance in He.
    simpl in He. rewrite He. reflexivity.
  - simpl. unfold within_tolerance in Hx. simpl in Hx. rewrite Hx.
    rewrite IH. reflexivity.
Qed.

(** Running off the end of the table. *)
Lemma scan_no_match (raw : Z) (l : speed_table) (g : globals) :
  Forall (fun x => within_tolerance raw x = false) l ->
  exists num den, scan_speed_list raw l g = (false, set_bus_freq g num den).
Proof.
  intros Hl. revert g.
  induction Hl as [| [n d] l Hx _ IH]; intros g.
  - exists (bus_freq_num g), (bus_freq_den g). destruct g. reflexivity.
  - simpl. unfold within_tolerance in Hx. simpl in Hx. rewrite Hx.
    destruct (IH (set_bus_freq g (Int.long n) (Int.long d))) as (a & b & E).
    exists a, b. rewrite E. reflexivity.
Qed.

(** A table has a first entry within tolerance as soon as it has one. *)
Lemma first_within_tolerance (raw : Z) (l : speed_table) :
  Exists (fun x => within_tolerance raw x = true) l ->
  exists pre e post,
    l = pre ++ e :: post /\
    Forall (fun x => within_tolerance raw x = false) pre /\
    within_tolerance raw e = true.
Proof.
  induction l as [| x l IH]; intros H.
  - inversion H.
  - destruct (within_tolerance raw x) eqn:Ex.
    + exists [], x, l. repeat split; auto.
    + assert (H' : Exists (fun x => within_tolerance raw x = true) l).
      { inversion H; subst; [congruence | assumption]. }
      destruct (IH H') as (pre & e & post & -> & Hpre & He).
      exists (x :: pre), e, post. repeat split; auto.
Qed.

Lemma no_match_or_first (raw : Z) (l : speed_table) :
  Forall (fun x => within_tolerance raw x = false) l \/
  Exists (fun x => within_tolerance raw x = true) l.
Proof.
  induction l as [| x l [IH | IH]].
  - left; constructor.
  - destruct (within_tolerance raw x) eqn:Ex.
    + right; constructor; assumption.
    + left; constructor; assumption.
  - right; apply Exists_cons_tl; assumption.
Qed.

(** The fallbacks write a pair that depends on the raw speed alone. *)
Lemma fallback_pair (raw : Z) :
  exists n d,
    (d = 1 \/ d = 3) /\
    (Int.in_long raw -> Int.in_long n) /\
    forall g, fallback raw g = set_bus_freq g n d.
Proof.
  destruct (Int.abs (Int.sub (half_mhz_guess raw) raw) <? kMaxFreqDiff) eqn:E1.
  { exists (half_mhz_guess raw), 1. conjs; auto.
    - intros _. apply long_in_range.
    - intros g. unfold fallback. cbv zeta. rewrite E1. reflexivity. }
  destruct (Int.abs (Int.sub (fifty_thirds_guess raw) (Int.mul raw 3))
            <? Int.mul kMaxFreqDiff 3) eqn:E2.
  { exists (fifty_thirds_guess raw), 3. conjs; auto.
    - intros _. apply long_in_range.
    - intros g. unfold fallback. cbv zeta. rewrite E1, E2. reflexivity. }
  exists raw, 1. conjs; auto.
  intros g. unfold fallback. cbv zeta. rewrite E1, E2. reflexivity.
Qed.

Lemma fallback_set (raw : Z) (g : globals) (a b : Z) :
  fallback raw (set_bus_freq g a b) = fallback raw g.
Proof.
  destruct (fallback_pair raw) as (n & d & _ & _ & H).
  rewrite (H g), (H (set_bus_freq g a b)). reflexivity.
Qed.

Lemma fallback_shape (raw : Z) (g g' : globals) :
  fallback raw g
  = set_bus_freq g (bus_freq_num (fallback raw g'))
                   (bus_freq_den (fallback raw g')).
Proof.
  destruct (fallback_pair raw) as (n & d & _ & _ & H).
  rewrite (H g), (H g'). reflexivity.
Qed.

(** With a first entry within tolerance, the fit is that entry. *)
Lemma fit_first_match (raw : Z) (pre post : speed_table) (e : Z * Z)
  (g : globals) :
  Forall (fun x => within_tolerance raw x = false) pre ->
  within_tolerance raw e = true ->
  fit_bus_freq (pre ++ e :: post) raw g
  = set_bus_freq g (Int.long (fst e)) (Int.long (snd e)).
Proof.
  intros Hpre He. unfold fit_bus_freq.
  rewrite (scan_first_match raw pre post e g Hpre He). reflexivity.
Qed.

(** With no entry within tolerance, the fit is what the fallbacks say. *)
Lemma fit_no_match (raw : Z) (l : speed_table) (g : globals) :
  Forall (fun x => within_tolerance raw x = false) l ->
  fit_bus_freq l raw g = fallback raw g.
Proof.
  intros Hl. unfold fit_bus_freq.
  destruct (scan_no_match raw l g Hl) as (a & b & E). rewrite E.
  apply fallback_set.
Qed.

(** The fit overwrites both halves of the bus frequency and leaves [cpu_pll]
    alone: the numerator and denominator found on entry do not matter. *)
Lemma fit_shape (l : speed_table) (raw : Z) (g g' : globals) :
  fit_bus_freq l raw g
  = set_bus_freq g (bus_freq_num (fit_bus_freq l raw g'))
                   (bus_freq_den (fit_bus_freq l raw g')).
Proof.
  destruct (no_match_or_first raw l) as [Hn | Hx].
  - rewrite !fit_no_match by assumption. apply fallback_shape.
  - destruct (first_within_tolerance raw l Hx) as (pre & e & post & -> & Hp & He).
    rewrite !fit_first_match by assumption. reflexivity.
Qed.

Lemma body_estimate (l : speed_table) (s : clock_test_data) (g : globals) :
  ticks_ok s ->
  clock_test_body l s g = Some (estimate l s).
Proof.
  intros [Hd Hv]. unfold clock_test_body, estimate, sample_raw, sample_pll.
  cbv zeta.
  apply Z.eqb_neq in Hd. apply Z.eqb_neq in Hv. rewrite Hd, Hv.
  f_equal.
  generalize (raw_bus_speed (Int.ulong (via_ticks s)) (Int.ulong (dec_ticks s))).
  generalize (pll_mode (Int.ulong (dec_ticks s))).
  intros pll raw.
  rewrite (fit_shape l raw (set_cpu_pll g pll) (mk_globals 0 0 pll)).
  pose proof (fit_shape l raw (mk_globals 0 0 pll) (mk_globals 0 0 pll)) as HX.
  revert HX. generalize (fit_bus_freq l raw (mk_globals 0 0 pll)).
  intros [n d p] HX. unfold set_bus_freq in *. simpl in *.
  inversion HX; subst. reflexivity.
Qed.

Lemma body_some (l : speed_table) (s : clock_test_data) (g g1 : globals) :
  clock_test_body l s g = Some g1 ->
  ticks_ok s /\ g1 = estimate l s.
Proof.
  intros H. assert (T : ticks_ok s).
  { unfold clock_test_body in H. unfold ticks_ok.
    destruct (Int.ulong (dec_ticks s) =? 0) eqn:Ed; [discriminate |].
    destruct (Int.ulong (via_ticks s) =? 0) eqn:Ev; [discriminate |].
    apply Z.eqb_neq in Ed. apply Z.eqb_neq in Ev. auto. }
  split; [assumption |].
  rewrite (body_estimate l s g T) in H. congruence.
Qed.

Lemma estimate_pll (l : speed_table) (s : clock_test_data) :
  cpu_pll (estimate l s) = sample_pll s.
Proof.
  unfold estimate. rewrite (fit_shape l _ _ (mk_globals 0 0 0)). reflexivity.
Qed.

(** ** The loop *)

Section LoopFacts.

Variable run : nat -> clock_test_data.
Variable l : speed_table.

Local Abbreviation num_at i := (bus_freq_num (estimate l (run i))).

(** What a finished loop says about the passes it made: pass [k + j] was
    the last one, every earlier pass changed the numerator, and the last
    one either repeated it or found [tries] at zero. *)
Lemma loop_inv (tries k : nat) (g g' : globals) (n : nat) :
  clock_test_loop run l tries k g = Some (g', n) ->
  exists j,
    (j <= tries)%nat /\ n = S (k + j) /\ g' = estimate l (run (k + j)%nat) /\
    (forall i, (i <= j)%nat -> ticks_ok (run (k + i)%nat)) /\
    (forall i, (i < j)%nat ->
       num_at (k + i)%nat
       <> (if Nat.eqb i 0 then bus_freq_num g
           else last_bus_freq_at l run (k + i))) /\
    ((j < tries)%nat ->
       bus_freq_num g'
       = (if Nat.eqb j 0 then bus_freq_num g
          else last_bus_freq_at l run (k + j))).
Proof.
  revert k g. induction tries as [| t IH]; intros k g H; simpl in H.
  - destruct (clock_test_body l (run k) g) as [g1 |] eqn:Eb; [| discriminate].
    apply body_some in Eb. destruct Eb as [T ->].
    assert (E : (g', n) = (estimate l (run k), S k)).
    { destruct (num_at k =? bus_freq_num g); congruence. }
    inversion E; subst. exists 0%nat. rewrite Nat.add_0_r.
    conjs; try reflexivity; try lia.
    intros i Hi. replace i with 0%nat by lia. now rewrite Nat.add_0_r.
  - destruct (clock_test_body l (run k) g) as [g1 |] eqn:Eb; [| discriminate].
    apply body_some in Eb. destruct Eb as [T ->].
    destruct (num_at k =? bus_freq_num g) eqn:En.
    + inversion H; subst. exists 0%nat. rewrite Nat.add_0_r.
      conjs; try reflexivity; try lia.
      * intros i Hi. replace i with 0%nat by lia. now rewrite Nat.add_0_r.
      * intros _. simpl. now apply Z.eqb_eq.
    + apply IH in H. destruct H as (j & Hj & -> & -> & Ht & Hne & Heq).
      exists (S j). replace (k + S j)%nat with (S k + j)%nat by lia.
      conjs; try reflexivity; try lia.
      * intros [| i] Hi.
        -- now rewrite Nat.add_0_r.
        -- replace (k + S i)%nat with (S k + i)%nat by lia. apply Ht; lia.
      * intros [| i] Hi.
        -- rewrite Nat.add_0_r. simpl. now apply Z.eqb_neq.
        -- replace (k + S i)%nat with (S k + i)%nat by lia.
           specialize (Hne i ltac:(lia)).
           destruct i; simpl in *; [now rewrite Nat.add_0_r in * | exact Hne].
      * intros Hlt. specialize (Heq ltac:(lia)).
        destruct j; simpl in *; [now rewrite Nat.add_0_r in * | exact Heq].
Qed.

(** The loop gives a result whenever the samples it takes are usable. *)
Lemma loop_total (tries k : nat) (g : globals) :
  (forall i, (i <= tries)%nat -> ticks_ok (run (k + i)%nat)) ->
  exists g' n, clock_test_loop run l tries k g = Some (g', n).
Proof.
  revert k g. induction tries as [| t IH]; intros k g Ht; simpl.
  - rewrite (body_estimate l (run k) g)
      by (specialize (Ht 0%nat ltac:(lia)); now rewrite Nat.add_0_r in Ht).
    destruct (_ =? _); eauto.
  - rewrite (body_estimate l (run k) g)
      by (specialize (Ht 0%nat ltac:(lia)); now rewrite Nat.add_0_r in Ht).
    destruct (_ =? _); eauto.
    apply IH. intros i Hi.
    replace (S k + i)%nat with (k + S i)%nat by lia. apply Ht; lia.
Qed.

(** Conversely, the passes decide the result: the loop stops after pass
    [k + j] when that is the first pass to repeat the numerator, or when it
    is the pass that finds [tries] at zero. *)
Lemma loop_run (tries k : nat) (g : globals) (j : nat) :
  (j <= tries)%nat ->
  (forall i, (i <= j)%nat -> ticks_ok (run (k + i)%nat)) ->
  (forall i, (i < j)%nat ->
     num_at (k + i)%nat
     <> (if Nat.eqb i 0 then bus_freq_num g
         else last_bus_freq_at l run (k + i))) ->
  ((j < tries)%nat ->
     num_at (k + j)%nat
     = (if Nat.eqb j 0 then bus_freq_num g
        else last_bus_freq_at l run (k + j))) ->
  clock_test_loop run l tries k g
  = Some (estimate l (run (k + j)%nat), S (k + j)).
Proof.
  revert k g j. induction tries as [| t IH]; intros k g j Hj Ht Hne Heq.
  - assert (j = 0)%nat by lia. subst j. simpl.
    pose proof (Ht 0%nat ltac:(lia)) as T0. rewrite Nat.add_0_r in *.
    rewrite (body_estimate l (run k) g T0).
    destruct (_ =? _); reflexivity.
  - pose proof (Ht 0%nat ltac:(lia)) as T0. rewrite Nat.add_0_r in T0.
    simpl. rewrite (body_estimate l (run k) g T0).
    destruct j as [| j].
    + specialize (Heq ltac:(lia)). simpl in Heq. rewrite Nat.add_0_r in *.
      apply Z.eqb_eq in Heq. rewrite Heq. reflexivity.
    + pose proof (Hne 0%nat ltac:(lia)) as N0. simpl in N0.
      rewrite Nat.add_0_r in N0. apply Z.eqb_neq in N0. rewrite N0.
      replace (k + S j)%nat with (S k + j)%nat by lia.
      apply IH.
      * lia.
      * intros i Hi. replace (S k + i)%nat with (k + S i)%nat by lia.
        apply Ht; lia.
      * intros i Hi. specialize (Hne (S i) ltac:(lia)). simpl in Hne.
        replace (k + S i)%nat with (S k + i)%nat in Hne by lia.
        destruct i; simpl; [now rewrite Nat.add_0_r in * | exact Hne].
      * intros Hlt. specialize (Heq ltac:(lia)). simpl in Heq.
        replace (k + S j)%nat with (S k + j)%nat in Heq by lia.
        destruct j; simpl; [now rewrite Nat.add_0_r in * | exact Heq].
Qed.

(** The same for the whole of [pe_do_clock_test], where the first pass
    compares with the 0 stored before the loop. *)
Lemma do_clock_test_inv (g g' : globals) (n : nat) :
  pe_do_clock_test run l g = Some (g', n) ->
  exists m,
    n = S m /\ (m <= 10)%nat /\ g' = estimate l (run m) /\
    (forall i, (i <= m)%nat -> ticks_ok (run i)) /\
    (forall i, (i < m)%nat -> num_at i <> last_bus_freq_at l run i) /\
    ((m < 10)%nat -> bus_freq_num g' = last_bus_freq_at l run m).
Proof.
  unfold pe_do_clock_test. intros H. apply loop_inv in H.
  destruct H as (j & Hj & -> & -> & Ht & Hne & Heq). simpl in *.
  exists j. conjs; auto.
  - intros i Hi. specialize (Hne i Hi). destruct i; exact Hne.
  - intros Hlt. specialize (Heq Hlt). destruct j; exact Heq.
Qed.

Lemma do_clock_test_total (g : globals) :
  (forall i, (i <= 10)%nat -> ticks_ok (run i)) ->
  exists g' n, pe_do_clock_test run l g = Some (g', n).
Proof. intros Ht. unfold pe_do_clock_test. apply loop_total. exact Ht. Qed.

Lemma do_clock_test_run (g : globals) (m : nat) :
  (m <= 10)%nat ->
  (forall i, (i <= m)%nat -> ticks_ok (run i)) ->
  (forall i, (i < m)%nat -> num_at i <> last_bus_freq_at l run i) ->
  ((m < 10)%nat -> num_at m = last_bus_freq_at l run m) ->
  pe_do_clock_test run l g = Some (estimate l (run m), S m).
Proof.
  intros Hm Ht Hne Heq. unfold pe_do_clock_test.
  apply (loop_run 10 0 _ m); auto.
  - intros i Hi. specialize (Hne i Hi). destruct i; exact Hne.
  - intros Hlt. specialize (Heq Hlt). destruct m; exact Heq.
Qed.

(** However the samples turn out, [pe_run_clock_test] is called at most
    eleven times. *)
Lemma do_clock_test_calls (g g' : globals) (n : nat) :
  pe_do_clock_test run l g = Some (g', n) -> (1 <= n <= 11)%nat.
Proof.
  intros H. apply do_clock_test_inv in H.
  destruct H as (m & -> & Hm & _). lia.
Qed.

End LoopFacts.

(** ** The arithmetic of the tests, where nothing wraps *)

Ltac long_small :=
  repeat match goal with
         | |- context [Int.long ?z] =>
             rewrite (long_small z) by (unfold Int.in_long; lia)
         end.

(** On values for which no intermediate result leaves the range of [long],
    the table test is the inequality it spells. *)
Lemma within_tolerance_exact (raw n d : Z) :
  Int.in_long n -> Int.in_long d ->
  Int.in_long (raw * d) ->
  - 2 ^ 31 < n - raw * d < 2 ^ 31 ->
  Int.in_long (kMaxFreqDiff * d) ->
  within_tolerance raw (n, d) = true
  <-> Z.abs (n - raw * d) < kMaxFreqDiff * d.
Proof.
  unfold Int.in_long, within_tolerance, close_enough, Int.abs, Int.neg,
    Int.sub, Int.mul, kMaxFreqDiff. simpl fst; simpl snd.
  intros Hn Hd Hm Hs Hk. long_small.
  destruct (n - raw * d <? 0) eqn:E.
  - apply Z.ltb_lt in E. long_small. rewrite Z.ltb_lt. lia.
  - apply Z.ltb_ge in E. rewrite Z.ltb_lt. lia.
Qed.

(** For a raw speed that is not negative and leaves room for the rounding
    term, line 137 computes the nearest multiple of 500000. *)
Lemma half_mhz_guess_nearest (raw : Z) :
  0 <= raw <= 2147233647 ->
  half_mhz_guess raw = nearest_multiple 500000 raw.
Proof.
  intros H. unfold half_mhz_guess, nearest_multiple, Int.add, Int.div, Int.mul.
  pose proof (Z.div_mod (raw + 250000) 500000 ltac:(lia)) as D.
  pose proof (Z.mod_pos_bound (raw + 250000) 500000 ltac:(lia)) as B.
  assert (E : (2 * raw + 500000) / (2 * 500000) = (raw + 250000) / 500000).
  { replace (2 * raw + 500000) with ((raw + 250000) * 2) by lia.
    replace (2 * 500000) with (500000 * 2) by lia.
    apply Z.div_mul_cancel_r; lia. }
  rewrite E. clear E.
  rewrite (long_small (raw + 250000)) by (unfold Int.in_long; lia).
  rewrite Z.quot_div_nonneg by lia.
  set (q := (raw + 250000) / 500000) in *.
  long_small. lia.
Qed.

Lemma half_mhz_diff (raw : Z) :
  0 <= raw <= 2147233647 ->
  Int.abs (Int.sub (half_mhz_guess raw) raw)
  = Z.abs (nearest_multiple 500000 raw - raw).
Proof.
  intros H. rewrite half_mhz_guess_nearest by assumption.
  pose proof (nearest_multiple_nearest 500000 raw 0 ltac:(lia)) as N0.
  pose proof (nearest_multiple_nearest 500000 raw 4294 ltac:(lia)) as N1.
  set (m := nearest_multiple 500000 raw) in *.
  unfold Int.abs, Int.sub, Int.neg.
  rewrite (long_small (m - raw)) by (unfold Int.in_long; lia).
  destruct (m - raw <? 0) eqn:E.
  - apply Z.ltb_lt in E. long_small. lia.
  - apply Z.ltb_ge in E. lia.
Qed.

(** The same for line 149 and the multiples of 50000000 around three times
    the raw speed. *)
Lemma fifty_thirds_guess_nearest (raw : Z) :
  0 <= raw <= 707494549 ->
  fifty_thirds_guess raw = nearest_multiple 50000000 (3 * raw).
Proof.
  intros H.
  unfold fifty_thirds_guess, nearest_multiple, Int.add, Int.div, Int.mul.
  pose proof (Z.div_mod (raw * 3 + 25000000) 50000000 ltac:(lia)) as D.
  pose proof (Z.mod_pos_bound (raw * 3 + 25000000) 50000000 ltac:(lia)) as B.
  assert (E : (2 * (3 * raw) + 50000000) / (2 * 50000000)
              = (raw * 3 + 25000000) / 50000000).
  { replace (2 * (3 * raw) + 50000000) with ((raw * 3 + 25000000) * 2) by lia.
    replace (2 * 50000000) with (50000000 * 2) by lia.
    apply Z.div_mul_cancel_r; lia. }
  rewrite E. clear E.
  rewrite (long_small (raw * 3)) by (unfold Int.in_long; lia).
  rewrite (long_small (raw * 3 + 25000000)) by (unfold Int.in_long; lia).
  rewrite Z.quot_div_nonneg by lia.
  set (q := (raw * 3 + 25000000) / 50000000) in *.
  long_small. lia.
Qed.

Lemma fifty_thirds_diff (raw : Z) :
  0 <= raw <= 707494549 ->
  Int.abs (Int.sub (fifty_thirds_guess raw) (Int.mul raw 3))
  = Z.abs (nearest_multiple 50000000 (3 * raw) - 3 * raw).
Proof.
  intros H. rewrite fifty_thirds_guess_nearest by assumption.
  pose proof (nearest_multiple_nearest 50000000 (3 * raw) 0 ltac:(lia)) as N0.
  pose proof (nearest_multiple_nearest 50000000 (3 * raw) 42 ltac:(lia)) as N1.
  set (m := nearest_multiple 50000000 (3 * raw)) in *.
  unfold Int.abs, Int.sub, Int.neg, Int.mul.
  rewrite (long_small (raw * 3)) by (unfold Int.in_long; lia).
  replace (raw * 3) with (3 * raw) by lia.
  rewrite (long_small (m - 3 * raw)) by (unfold Int.in_long; lia).
  destruct (m - 3 * raw <? 0) eqn:E.
  - apply Z.ltb_lt in E. long_small. lia.
  - apply Z.ltb_ge in E. lia.
Qed.

(** ** The body on a usable sample *)

Lemma body_first_match (pre post : speed_table) (e : Z * Z)
  (s : clock_test_data) (g : globals) :
  ticks_ok s ->
  Forall (fun x => within_tolerance (sample_raw s) x = false) pre ->
  within_tolerance (sample_raw s) e = true ->
  clock_test_body (pre ++ e :: post) s g
  = Some (mk_globals (Int.long (fst e)) (Int.long (snd e)) (sample_pll s)).
Proof.
  intros T Hpre He. rewrite (body_estimate _ s g T). unfold estimate.
  rewrite fit_first_match by assumption. reflexivity.
Qed.

Lemma body_no_match (l : speed_table) (s : clock_test_data) (g : globals) :
  ticks_ok s ->
  Forall (fun x => within_tolerance (sample_raw s) x = false) l ->
  clock_test_body l s g
  = Some (fallback (sample_raw s) (mk_globals 0 0 (sample_pll s))).
Proof.
  intros T Hl. rewrite (body_estimate _ s g T). unfold estimate.
  rewrite fit_no_match by assumption. reflexivity.
Qed.

(** Whenever some entry of the table passes the test of lines 129-132, the
    table splits around its first such entry: no entry before it passes, and
    the pass leaves exactly that entry in [bus_freq_num] and [bus_freq_den].
    The fallbacks have no say in the result. *)
Lemma scan_accepts_first_passing_entry
  (l : speed_table) (s : clock_test_data) (g : globals) :
  ticks_ok s ->
  Exists (fun e => within_tolerance (sample_raw s) e = true) l ->
  exists pre e post,
    l = pre ++ e :: post /\
    Forall (fun x => within_tolerance (sample_raw s) x = false) pre /\
    within_tolerance (sample_raw s) e = true /\
    scan_speed_list (sample_raw s) l (set_cpu_pll g (sample_pll s))
    = (true, mk_globals (Int.long (fst e)) (Int.long (snd e)) (sample_pll s)) /\
    clock_test_body l s g
    = Some (mk_globals (Int.long (fst e)) (Int.long (snd e)) (sample_pll s)).
Proof.
  intros T Hx.
  destruct (first_within_tolerance _ _ Hx) as (pre & e & post & -> & Hp & He).
  exists pre, e, post. conjs; auto.
  - rewrite scan_first_match by assumption. reflexivity.
  - apply body_first_match; assumption.
Qed.

(** On an entry in range the test of the code decides the integer
    inequality. *)
Lemma within_tolerance_in_range (raw : Z) (e : Z * Z) :
  0 <= raw ->
  entry_in_range raw e ->
  within_tolerance raw e = true <-> tolerance_holds raw e.
Proof.
  intros Hr (Hn & Hd & Hm). destruct e as [n d]. cbn [fst snd] in *.
  unfold tolerance_holds. cbn [fst snd].
  assert (B1 : 0 <= raw * d < 2 ^ 31) by nia.
  assert (B2 : 0 <= 30000 * d < 2 ^ 31) by nia.
  apply within_tolerance_exact; unfold Int.in_long, kMaxFreqDiff; lia.
Qed.

(** C3 (as amended).  For a sample whose raw bus speed is not negative and a
    table whose entries are in range for it (numerator in 0 .. 2^31 - 1,
    denominator [den >= 0] with [den * (raw + 30000) < 2^31], so that the
    32-bit test of the code does not wrap): whenever some entry satisfies
    [|num - raw * den| < 30000 * den], the table splits around its first such
    entry -- no entry before it satisfies the inequality -- and the pass leaves
    exactly that entry in [bus_freq_num] and [bus_freq_den], the fallbacks
    having no say. *)
Theorem C3_first_entry_within_tolerance_wins_in_range
  (l : speed_table) (s : clock_test_data) (g : globals) :
  ticks_ok s ->
  0 <= sample_raw s ->
  Forall (entry_in_range (sample_raw s)) l ->
  Exists (tolerance_holds (sample_raw s)) l ->
  exists pre e post,
    l = pre ++ e :: post /\
    Forall (fun x => ~ tolerance_holds (sample_raw s) x) pre /\
    tolerance_holds (sample_raw s) e /\
    clock_test_body l s g
    = Some (mk_globals (fst e) (snd e) (sample_pll s)).
Proof.
  intros T Hr Hl Hx.
  assert (Hx' : Exists (fun e => within_tolerance (sample_raw s) e = true) l).
  { apply Exists_exists in Hx. destruct Hx as (e & Hin & He).
    apply Exists_exists. exists e. split; [exact Hin |].
    rewrite Forall_forall in Hl.
    apply (within_tolerance_in_range _ e Hr (Hl e Hin)). exact He. }
  destruct (first_within_tolerance _ _ Hx') as (pre & e & post & -> & Hp & He).
  apply Forall_app in Hl. destruct Hl as [Hlpre Hlrest].
  pose proof (Forall_inv Hlrest) as Hle.
  exists pre, e, post. conjs.
  - reflexivity.
  - rewrite Forall_forall in *. intros x Hin Hx0.
    apply (within_tolerance_in_range _ x Hr (Hlpre x Hin)) in Hx0.
    rewrite (Hp x Hin) in Hx0. discriminate.
  - apply (within_tolerance_in_range _ e Hr Hle). exact He.
  - rewrite (body_first_match pre post e s g T Hp He).
    destruct Hle as (Hn & Hd & Hm).
    assert (B : 0 <= snd e < 2 ^ 31) by nia.
    rewrite (long_small (fst e)) by (unfold Int.in_long; lia).
    rewrite (long_small (snd e)) by (unfold Int.in_long; lia).
    reflexivity.
Qed.

Lemma C3_witness :
  exists pre e post,
    [(50000000, 1); (100000000, 1); (200000000, 2)] = pre ++ e :: post /\
    Forall (fun x => ~ tolerance_holds 100005578 x) pre /\
    tolerance_holds 100005578 e /\
    clock_test_body [(50000000, 1); (100000000, 1); (200000000, 2)]
      (mk_sample 5481 10000000) (mk_globals 0 0 0)
    = Some (mk_globals (fst e) (snd e) 1).
Proof.
  apply (C3_first_entry_within_tolerance_wins_in_range
           [(50000000, 1); (100000000, 1); (200000000, 2)]
           (mk_sample 5481 10000000) (mk_globals 0 0 0)).
  - split; vm_compute; discriminate.
  - vm_compute. discriminate.
  - repeat constructor; vm_compute; discriminate.
  - apply Exists_cons_tl, Exists_cons_hd. vm_compute. reflexivity.
Defined.

(** C3 as stated fails when the 32-bit test wraps.  With the raw speed
    100005578 of the sample (via_ticks 5481, dec_ticks 10000000) and the
    table [(5272558, 43); (100000000, 1)], the product [raw * 43] is
    4300239854, which a [long] holds as 5272558: the test finds a difference
    of 0 on the first entry and accepts it, although that entry is far from
    satisfying the inequality, and the second entry, the first one that does
    satisfy it, is never looked at. *)
Lemma C3_counterexample :
  let s := mk_sample 5481 10000000 in
  let l := [(5272558, 43); (100000000, 1)] in
  ticks_ok s /\
  sample_raw s = 100005578 /\
  ~ tolerance_holds (sample_raw s) (5272558, 43) /\
  tolerance_holds (sample_raw s) (100000000, 1) /\
  within_tolerance (sample_raw s) (5272558, 43) = true /\
  clock_test_body l s (mk_globals 0 0 0) = Some (mk_globals 5272558 43 1) /\
  clock_test_body l s (mk_globals 0 0 0) <> Some (mk_globals 100000000 1 1).
Proof.
  cbv zeta. conjs.
  - split; vm_compute; discriminate.
  - vm_compute. reflexivity.
  - vm_compute. discriminate.
  - vm_compute. reflexivity.
  - vm_compute. reflexivity.
  - vm_compute. reflexivity.
  - vm_compute. discriminate.
Qed.

(** C4 (as amended).  For a sample whose raw bus speed lies between 0 and
    2147233647 (so that adding 250000 stays within a 32-bit [long]): when no
    table entry is within tolerance and the raw speed is less than 30000 away
    from its nearest multiple of 500000, the pass leaves that multiple in
    [bus_freq_num] and 1 in [bus_freq_den]; the later fallbacks are not
    consulted. *)
Theorem C4_half_mhz_snap_in_range
  (l : speed_table) (s : clock_test_data) (g : globals) :
  ticks_ok s ->
  0 <= sample_raw s <= 2147233647 ->
  Forall (fun e => within_tolerance (sample_raw s) e = false) l ->
  Z.abs (nearest_multiple 500000 (sample_raw s) - sample_raw s) < 30000 ->
  clock_test_body l s g
  = Some (mk_globals (nearest_multiple 500000 (sample_raw s)) 1 (sample_pll s)).
Proof.
  intros T Hr Hl Hd. rewrite body_no_match by assumption.
  unfold fallback. rewrite half_mhz_diff by assumption.
  apply Z.ltb_lt in Hd. unfold kMaxFreqDiff. rewrite Hd.
  rewrite half_mhz_guess_nearest by assumption. reflexivity.
Qed.

Lemma C4_witness :
  clock_test_body [(66000000, 1)] (mk_sample 5481 10000000) (mk_globals 0 0 0)
  = Some (mk_globals 100000000 1 1).
Proof.
  apply (C4_half_mhz_snap_in_range
           [(66000000, 1)] (mk_sample 5481 10000000) (mk_globals 0 0 0)).
  - split; vm_compute; discriminate.
  - vm_compute. split; discriminate.
  - repeat constructor.
  - vm_compute. reflexivity.
Defined.

(** C4 as stated fails on a raw speed that reads as a negative [long].  The
    sample (via_ticks 1, dec_ticks 1300) gives the 32-bit pattern 4073479299,
    which the [long] [raw_bus_freq] holds as -221487997.  No entry of the
    table is within tolerance, the nearest multiple of 500000 is -221500000,
    12003 away, and yet the pass leaves the raw value: line 137 rounds
    towards zero, to -221000000. *)
Lemma C4_counterexample :
  let s := mk_sample 1 1300 in
  let l := [(100000000, 1)] in
  ticks_ok s /\
  sample_raw s = -221487997 /\
  Forall (fun e => within_tolerance (sample_raw s) e = false) l /\
  nearest_multiple 500000 (sample_raw s) = -221500000 /\
  Z.abs (nearest_multiple 500000 (sample_raw s) - sample_raw s) < 30000 /\
  half_mhz_guess (sample_raw s) = -221000000 /\
  clock_test_body l s (mk_globals 0 0 0)
  = Some (mk_globals (-221487997) 1 3846) /\
  clock_test_body l s (mk_globals 0 0 0)
  <> Some (mk_globals (nearest_multiple 500000 (sample_raw s)) 1 (sample_pll s)).
Proof.
  cbv zeta. conjs.
  - split; vm_compute; discriminate.
  - vm_compute. reflexivity.
  - repeat constructor.
  - vm_compute. reflexivity.
  - vm_compute. reflexivity.
  - vm_compute. reflexivity.
  - vm_compute. reflexivity.
  - vm_compute. discriminate.
Qed.

(** C5 (as amended).  Every pass on a usable sample ends with some accepted
    frequency.  For a sample whose raw bus speed lies between 0 and 707494549
    (so that three times the raw speed plus 25000000 stays within a 32-bit
    [long]), when neither the table nor the half-MHz test accepts: if the
    nearest multiple of 50000000 to three times the raw speed is less than
    3 * 30000 away from it, the pass leaves that multiple over 3; otherwise
    it leaves the raw speed over 1. *)
Theorem C5_fifty_thirds_or_raw_in_range
  (l : speed_table) (s : clock_test_data) (g : globals) :
  ticks_ok s ->
  (exists g1, clock_test_body l s g = Some g1) /\
  (0 <= sample_raw s <= 707494549 ->
   Forall (fun e => within_tolerance (sample_raw s) e = false) l ->
   30000 <= Z.abs (nearest_multiple 500000 (sample_raw s) - sample_raw s) ->
   clock_test_body l s g
   = Some (if Z.abs (nearest_multiple 50000000 (3 * sample_raw s)
                     - 3 * sample_raw s) <? 3 * 30000
           then mk_globals (nearest_multiple 50000000 (3 * sample_raw s)) 3
                           (sample_pll s)
           else mk_globals (sample_raw s) 1 (sample_pll s))).
Proof.
  intros T. split.
  - eexists. apply body_estimate. exact T.
  - intros Hr Hl Hd. rewrite body_no_match by assumption.
    unfold fallback. rewrite half_mhz_diff by lia.
    apply Z.ltb_ge in Hd. unfold kMaxFreqDiff. rewrite Hd.
    rewrite fifty_thirds_diff by assumption.
    rewrite fifty_thirds_guess_nearest by assumption.
    change (Int.mul 30000 3) with (3 * 30000).
    destruct (_ <? 3 * 30000); reflexivity.
Qed.

Lemma C5_witness :
  (exists g1,
     clock_test_body [(100000000, 1)] (mk_sample 10000 53190) (mk_globals 0 0 0)
     = Some g1) /\
  clock_test_body [(100000000, 1)] (mk_sample 10000 53190) (mk_globals 0 0 0)
  = Some (mk_globals 50000000 3 94).
Proof.
  assert (T : ticks_ok (mk_sample 10000 53190))
    by (split; vm_compute; discriminate).
  destruct (C5_fifty_thirds_or_raw_in_range
              [(100000000, 1)] (mk_sample 10000 53190) (mk_globals 0 0 0) T)
    as [H1 H2].
  split; [exact H1 |].
  apply H2.
  - vm_compute. split; discriminate.
  - repeat constructor.
  - vm_compute. discriminate.
Defined.

(** C5 as stated fails on a raw speed that reads as a negative [long].  The
    sample (via_ticks 2, dec_ticks 2635) gives raw speed -166652699.  Neither
    the table nor the half-MHz test accepts; three times the raw speed is
    -499958097, whose nearest multiple of 50000000 is -500000000, 41903 away;
    and yet the pass leaves the raw speed over 1: line 149 rounds towards
    zero, to -450000000. *)
Lemma C5_counterexample :
  let s := mk_sample 2 2635 in
  let l := [(100000000, 1)] in
  ticks_ok s /\
  sample_raw s = -166652699 /\
  Forall (fun e => within_tolerance (sample_raw s) e = false) l /\
  30000 <= Z.abs (nearest_multiple 500000 (sample_raw s) - sample_raw s) /\
  Z.abs (half_mhz_guess (sample_raw s) - sample_raw s) >= 30000 /\
  nearest_multiple 50000000 (3 * sample_raw s) = -500000000 /\
  Z.abs (nearest_multiple 50000000 (3 * sample_raw s) - 3 * sample_raw s)
  < 3 * 30000 /\
  fifty_thirds_guess (sample_raw s) = -450000000 /\
  clock_test_body l s (mk_globals 0 0 0)
  = Some (mk_globals (-166652699) 1 1898) /\
  clock_test_body l s (mk_globals 0 0 0)
  <> Some (mk_globals (nearest_multiple 50000000 (3 * sample_raw s)) 3
                      (sample_pll s)).
Proof.
  cbv zeta. conjs.
  - split; vm_compute; discriminate.
  - vm_compute. reflexivity.
  - repeat constructor.
  - vm_compute. discriminate.
  - vm_compute. discriminate.
  - vm_compute. reflexivity.
  - vm_compute. reflexivity.
  - vm_compute. reflexivity.
  - vm_compute. reflexivity.
  - vm_compute. discriminate.
Qed.

(** ** The report *)

Lemma fallback_den (raw : Z) (g : globals) :
  bus_freq_den (fallback raw g) = 1 \/ bus_freq_den (fallback raw g) = 3.
Proof.
  destruct (fallback_pair raw) as (n & d & Hd & _ & H).
  rewrite (H g). exact Hd.
Qed.

(** With positive denominators in the table, every pass leaves a positive
    denominator behind. *)
Lemma estimate_den_pos (l : speed_table) (s : clock_test_data) :
  speed_list_ok l ->
  0 < bus_freq_den (estimate l s) < 2 ^ 31.
Proof.
  intros Hok. unfold estimate.
  destruct (no_match_or_first (sample_raw s) l) as [Hn | Hx].
  - rewrite fit_no_match by assumption.
    destruct (fallback_den (sample_raw s) (mk_globals 0 0 (sample_pll s)))
      as [-> | ->]; lia.
  - destruct (first_within_tolerance _ _ Hx) as (pre & e & post & -> & Hp & He).
    rewrite fit_first_match by assumption. simpl.
    unfold speed_list_ok in Hok. rewrite Forall_forall in Hok.
    specialize (Hok e ltac:(apply in_or_app; right; left; reflexivity)).
    rewrite long_small by (unfold Int.in_long; lia). exact Hok.
Qed.

Lemma report_total (g : globals) :
  0 < bus_freq_den g < 2 ^ 31 ->
  exists info, report g = Some info.
Proof.
  intros Hd. unfold report.
  destruct (bus_freq_den g =? 0) eqn:E0; [apply Z.eqb_eq in E0; lia |].
  destruct (Int.ullong (Int.mul (bus_freq_den g) 2) =? 0) eqn:E1.
  - exfalso. apply Z.eqb_eq in E1. revert E1.
    unfold Int.ullong, Int.mul, Int.long.
    pose proof (Z.mod_pos_bound (bus_freq_den g * 2 + 2 ^ 31) (2 ^ 32) ltac:(lia)) as B.
    pose proof (Z.div_mod (bus_freq_den g * 2 + 2 ^ 31) (2 ^ 32) ltac:(lia)) as D.
    set (m := (bus_freq_den g * 2 + 2 ^ 31) mod 2 ^ 32) in *.
    set (q := (bus_freq_den g * 2 + 2 ^ 31) / 2 ^ 32) in *.
    intros E1.
    assert (Hm : m <> 2 ^ 31).
    { intros Hm. rewrite Hm in D.
      assert (q = 0 \/ q < 0 \/ 0 < q) as [Q | [Q | Q]] by lia; lia. }
    apply Z.mod_divide in E1; [| lia]. destruct E1 as [c Hc].
    assert (c = 0 \/ c < 0 \/ 0 < c) as [C | [C | C]] by lia; lia.
  - eexists. reflexivity.
Qed.

(** What a successful report says, field by field. *)
Lemma report_fields (g : globals) (info : clock_frequency_info) :
  report g = Some info ->
  bus_clock_rate_hz info
  = Int.ulong (Int.div (bus_freq_num g) (bus_freq_den g)) /\
  dec_clock_rate_hz info = bus_clock_rate_hz info / 4 /\
  cpu_clock_rate_hz info
  = Int.ulong (Int.ullong (Int.ullong (bus_freq_num g) * Int.ullong (cpu_pll g))
               / Int.ullong (Int.mul (bus_freq_den g) 2)) /\
  bus_clock_rate_num info = Int.ulong (bus_freq_num g) /\
  bus_clock_rate_den info = Int.ulong (bus_freq_den g) /\
  bus_to_cpu_rate_num info = Int.ulong (cpu_pll g) /\
  bus_to_cpu_rate_den info = 2 /\
  bus_to_dec_rate_num info = 1 /\
  bus_to_dec_rate_den info = 4.
Proof.
  unfold report.
  destruct (bus_freq_den g =? 0); [discriminate |].
  destruct (Int.ullong (Int.mul (bus_freq_den g) 2) =? 0); [discriminate |].
  intros H. inversion H; subst; simpl. conjs; reflexivity.
Qed.

Lemma determine_inv (run : nat -> clock_test_data) (l : speed_table)
  (g : globals) (info : clock_frequency_info) (g' : globals) :
  PE_Determine_Clock_Speeds run l g = Some (info, g') ->
  exists n, pe_do_clock_test run l g = Some (g', n) /\ report g' = Some info.
Proof.
  unfold PE_Determine_Clock_Speeds.
  destruct (pe_do_clock_test run l g) as [[g1 n] |]; [| discriminate].
  destruct (report g1) as [i |] eqn:Er; [| discriminate].
  intros H. inversion H; subst. eauto.
Qed.

Lemma determine_total (run : nat -> clock_test_data) (l : speed_table)
  (g : globals) :
  (forall i, (i <= 10)%nat -> ticks_ok (run i)) ->
  speed_list_ok l ->
  exists info g', PE_Determine_Clock_Speeds run l g = Some (info, g').
Proof.
  intros Ht Hok.
  destruct (do_clock_test_total run l g Ht) as (g' & n & E).
  pose proof (do_clock_test_inv run l g g' n E) as (m & _ & _ & -> & _).
  destruct (report_total (estimate l (run m)) (estimate_den_pos l (run m) Hok))
    as (info & Er).
  exists info, (estimate l (run m)).
  unfold PE_Determine_Clock_Speeds. rewrite E, Er. reflexivity.
Qed.

Lemma fallback_in_long (raw : Z) (g : globals) :
  Int.in_long raw ->
  Int.in_long (bus_freq_num (fallback raw g)) /\
  Int.in_long (bus_freq_den (fallback raw g)).
Proof.
  intros Hr. destruct (fallback_pair raw) as (n & d & Hd & Hn & H).
  rewrite (H g). simpl. split; [auto |].
  unfold Int.in_long. destruct Hd as [-> | ->]; lia.
Qed.

Lemma estimate_in_long (l : speed_table) (s : clock_test_data) :
  Int.in_long (bus_freq_num (estimate l s)) /\
  Int.in_long (bus_freq_den (estimate l s)).
Proof.
  unfold estimate.
  destruct (no_match_or_first (sample_raw s) l) as [Hn | Hx].
  - rewrite fit_no_match by assumption.
    apply fallback_in_long. apply long_in_range.
  - destruct (first_within_tolerance _ _ Hx) as (pre & e & post & -> & Hp & He).
    rewrite fit_first_match by assumption. simpl. split; apply long_in_range.
Qed.

(** ** The stopping decision *)

(** C1 (as amended).  The stopping decision looks at numerators only.  With
    usable samples the loop ends after pass [m] (counted from 0), where [m] is
    the first pass whose accepted numerator equals the value kept in
    [last_bus_freq] -- 0 in the first pass, the numerator of the pass before
    afterwards -- or pass 10 if there is none earlier; the result is what pass
    [m] accepted.  Denominators are never compared. *)
Theorem C1_loop_stops_on_equal_numerators
  (run : nat -> clock_test_data) (l : speed_table) (g : globals) :
  (forall i, (i <= 10)%nat -> ticks_ok (run i)) ->
  exists m,
    (m <= 10)%nat /\
    pe_do_clock_test run l g = Some (estimate l (run m), S m) /\
    (forall i, (i < m)%nat ->
       bus_freq_num (estimate l (run i)) <> last_bus_freq_at l run i) /\
    ((m < 10)%nat ->
       bus_freq_num (estimate l (run m)) = last_bus_freq_at l run m).
Proof.
  intros Ht.
  destruct (do_clock_test_total run l g Ht) as (g' & n & E).
  destruct (do_clock_test_inv run l g g' n E)
    as (m & -> & Hm & -> & _ & Hne & Heq).
  exists m. conjs; auto.
Qed.

Lemma C1_witness :
  exists m,
    (m <= 10)%nat /\
    pe_do_clock_test (fun _ => mk_sample 5481 10000000) [(100000000, 1)]
      (mk_globals 0 0 0)
    = Some (estimate [(100000000, 1)] (mk_sample 5481 10000000), S m) /\
    (forall i, (i < m)%nat ->
       bus_freq_num (estimate [(100000000, 1)] (mk_sample 5481 10000000))
       <> last_bus_freq_at [(100000000, 1)]
            (fun _ => mk_sample 5481 10000000) i) /\
    ((m < 10)%nat ->
       bus_freq_num (estimate [(100000000, 1)] (mk_sample 5481 10000000))
       = last_bus_freq_at [(100000000, 1)]
           (fun _ => mk_sample 5481 10000000) m).
Proof.
  apply (C1_loop_stops_on_equal_numerators
           (fun _ => mk_sample 5481 10000000) [(100000000, 1)]
           (mk_globals 0 0 0)).
  intros i _. split; vm_compute; discriminate.
Defined.

(** C1 as stated fails when two consecutive passes agree on the numerator
    and differ on the denominator.  The first sample has raw speed 16666797
    and is accepted as 50000000 / 3, the second has raw speed 50000078 and is
    accepted as 50000000 / 1.  The pairs differ, yet the loop stops after the
    second pass, nine passes before its budget runs out. *)
Lemma C1_counterexample :
  let run := fun i : nat =>
    match i with O => mk_sample 10000 53190 | _ => mk_sample 10000 159569 end in
  let l := [(100000000, 1)] in
  estimate l (run 0%nat) = mk_globals 50000000 3 94 /\
  estimate l (run 1%nat) = mk_globals 50000000 1 31 /\
  (bus_freq_num (estimate l (run 0%nat)), bus_freq_den (estimate l (run 0%nat)))
  <> (bus_freq_num (estimate l (run 1%nat)), bus_freq_den (estimate l (run 1%nat))) /\
  pe_do_clock_test run l (mk_globals 0 0 0)
  = Some (mk_globals 50000000 1 31, 2%nat).
Proof.
  cbv zeta. conjs.
  - vm_compute. reflexivity.
  - vm_compute. reflexivity.
  - vm_compute. discriminate.
  - vm_compute. reflexivity.
Qed.

(** C2.  A run that never settles: the samples alternate between raw speed
    100001455 (accepted as 100000000 / 1) and raw speed 50000078 (accepted as
    50000000 / 1).  [pe_run_clock_test] is called eleven times: the loop
    body runs once, and then once more for each of the ten values 10, ..., 1
    that [tries--] yields before it yields 0. *)
Theorem C2_eleven_passes_when_never_stable :
  pe_do_clock_test
    (fun i => if Nat.even i then mk_sample 31334 1000000
              else mk_sample 10000 159569)
    [(100000000, 1)] (mk_globals 0 0 0)
  = Some (mk_globals 100000000 1 5, 11%nat).
Proof. vm_compute. reflexivity. Qed.

(** ** What is published *)

(** C6.  Whatever the run and whichever test accepted the final estimate,
    the published decrementer rate is the published bus rate divided by 4, the
    published bus rate is [bus_freq_num / bus_freq_den] (the plain integer
    quotient when the numerator is not negative and the denominator
    positive), and the bus-to-decrementer pair is (1, 4). *)
Theorem C6_decrementer_is_a_quarter_of_bus
  (run : nat -> clock_test_data) (l : speed_table) (g : globals)
  (info : clock_frequency_info) (g' : globals) :
  PE_Determine_Clock_Speeds run l g = Some (info, g') ->
  dec_clock_rate_hz info = bus_clock_rate_hz info / 4 /\
  bus_clock_rate_hz info
  = Int.ulong (Int.div (bus_freq_num g') (bus_freq_den g')) /\
  (0 <= bus_freq_num g' -> 0 < bus_freq_den g' ->
   bus_clock_rate_hz info = bus_freq_num g' / bus_freq_den g') /\
  bus_to_dec_rate_num info = 1 /\
  bus_to_dec_rate_den info = 4.
Proof.
  intros H. apply determine_inv in H. destruct H as (n & Hn & Hr).
  apply report_fields in Hr.
  destruct Hr as (Hb & Hd & _ & _ & _ & _ & _ & H1 & H4).
  conjs; auto.
  intros Hnum Hden. rewrite Hb.
  apply do_clock_test_inv in Hn. destruct Hn as (m & _ & _ & -> & _).
  destruct (estimate_in_long l (run m)) as [In Id].
  set (a := bus_freq_num (estimate l (run m))) in *.
  set (b := bus_freq_den (estimate l (run m))) in *.
  unfold Int.in_long in In, Id. unfold Int.div, Int.ulong.
  rewrite Z.quot_div_nonneg by lia.
  pose proof (Z.div_pos a b ltac:(lia) ltac:(lia)).
  assert (a / b <= a) by (apply Z.div_le_upper_bound; nia).
  rewrite long_small by (unfold Int.in_long; lia).
  apply Z.mod_small. lia.
Qed.

Lemma C6_witness :
  let info := mk_info 50000000 775000000 12500000 50000000 1 31 2 1 4 in
  dec_clock_rate_hz info = bus_clock_rate_hz info / 4 /\
  bus_clock_rate_hz info = Int.ulong (Int.div 50000000 1) /\
  bus_clock_rate_hz info = 50000000 / 1 /\
  bus_to_dec_rate_num info = 1 /\
  bus_to_dec_rate_den info = 4.
Proof.
  intros info.
  destruct (C6_decrementer_is_a_quarter_of_bus
              (fun i : nat => match i with
                              | O => mk_sample 10000 53190
                              | _ => mk_sample 10000 159569
                              end)
              [(100000000, 1)] (mk_globals 0 0 0)
              info (mk_globals 50000000 1 31))
    as (H1 & H2 & H3 & H4 & H5).
  - vm_compute. reflexivity.
  - conjs; [exact H1 | exact H2 | apply H3; simpl; lia | exact H4 | exact H5].
Defined.

(** C7.  When every pass changes the numerator, so that the loop only ends
    because its budget has run out, nothing fails: with usable samples and a
    table of positive denominators, [PE_Determine_Clock_Speeds] publishes a
    record, and each of its nine fields is computed from what the last pass
    accepted: the bus frequency fraction and the pll mode of that pass as they
    are, 2, 1 and 4 as constants, the bus rate as the quotient of the fraction,
    the cpu rate as bus numerator times pll over twice the denominator, the
    decrementer rate as a quarter of the bus rate.  A run that ends because two
    numerators agree publishes the same nine fields, computed in the same way
    from what its last pass accepted. *)
Theorem C7_exhausted_budget_publishes_last_estimate
  (run : nat -> clock_test_data) (l : speed_table) (g : globals) :
  let published := fun (last : globals) (info : clock_frequency_info) =>
    bus_clock_rate_num info = Int.ulong (bus_freq_num last) /\
    bus_clock_rate_den info = Int.ulong (bus_freq_den last) /\
    bus_to_cpu_rate_num info = Int.ulong (cpu_pll last) /\
    bus_to_cpu_rate_den info = 2 /\
    bus_to_dec_rate_num info = 1 /\
    bus_to_dec_rate_den info = 4 /\
    bus_clock_rate_hz info
    = Int.ulong (Int.div (bus_freq_num last) (bus_freq_den last)) /\
    cpu_clock_rate_hz info
    = Int.ulong
        (Int.ullong (Int.ullong (bus_freq_num last) * Int.ullong (cpu_pll last))
         / Int.ullong (Int.mul (bus_freq_den last) 2)) /\
    dec_clock_rate_hz info = bus_clock_rate_hz info / 4 in
  (forall i, (i <= 10)%nat -> ticks_ok (run i)) ->
  speed_list_ok l ->
  (forall i, (i <= 10)%nat ->
     bus_freq_num (estimate l (run i)) <> last_bus_freq_at l run i) ->
  (exists info,
     pe_do_clock_test run l g = Some (estimate l (run 10%nat), 11%nat) /\
     PE_Determine_Clock_Speeds run l g
     = Some (info, estimate l (run 10%nat)) /\
     cpu_pll (estimate l (run 10%nat)) = sample_pll (run 10%nat) /\
     published (estimate l (run 10%nat)) info) /\
  (forall run' g0 info' g' n,
     PE_Determine_Clock_Speeds run' l g0 = Some (info', g') ->
     pe_do_clock_test run' l g0 = Some (g', n) ->
     g' = estimate l (run' (n - 1)%nat) /\ published g' info').
Proof.
  intros published Ht Hok Hne.
  assert (F : forall g' info', report g' = Some info' -> published g' info').
  { intros g' info' Hr. apply report_fields in Hr.
    destruct Hr as (Hb & Hd & Hc & Hn & Hde & Hp & H2 & H1 & H4).
    unfold published. conjs; assumption. }
  split.
  - assert (E : pe_do_clock_test run l g
                = Some (estimate l (run 10%nat), 11%nat)).
    { apply (do_clock_test_run run l g 10); auto.
      - intros i Hi. apply Hne. lia.
      - lia. }
    destruct (report_total _ (estimate_den_pos l (run 10%nat) Hok))
      as (info & Er).
    exists info. split; [exact E |]. split.
    { unfold PE_Determine_Clock_Speeds. rewrite E, Er. reflexivity. }
    split; [apply estimate_pll | apply F; exact Er].
  - intros run' g0 info' g' n H Hrun. apply determine_inv in H.
    destruct H as (n' & _ & Hr).
    apply do_clock_test_inv in Hrun. destruct Hrun as (m & -> & _ & -> & _).
    replace (S m - 1)%nat with m by lia.
    split; [reflexivity | apply F; exact Hr].
Qed.

Lemma C7_witness :
  let run := fun i : nat =>
    if Nat.even i then mk_sample 31334 1000000 else mk_sample 10000 159569 in
  let l := [(100000000, 1)] in
  exists info,
    pe_do_clock_test run l (mk_globals 0 0 0)
    = Some (mk_globals 100000000 1 5, 11%nat) /\
    PE_Determine_Clock_Speeds run l (mk_globals 0 0 0)
    = Some (info, mk_globals 100000000 1 5) /\
    bus_clock_rate_num info = 100000000 /\
    bus_clock_rate_den info = 1 /\
    bus_to_cpu_rate_num info = 5 /\
    bus_to_cpu_rate_den info = 2 /\
    bus_to_dec_rate_num info = 1 /\
    bus_to_dec_rate_den info = 4 /\
    bus_clock_rate_hz info = 100000000 /\
    cpu_clock_rate_hz info = 250000000 /\
    dec_clock_rate_hz info = 25000000.
Proof.
  intros run l.
  destruct (C7_exhausted_budget_publishes_last_estimate
              run l (mk_globals 0 0 0)) as [(info & E & D & _ & P) _].
  - intros i _. unfold run. destruct (Nat.even i); split; vm_compute; discriminate.
  - repeat constructor.
  - intros i Hi.
    do 11 (destruct i as [| i]; [vm_compute; discriminate |]). lia.
  - exists info.
    change (estimate l (run 10%nat)) with (mk_globals 100000000 1 5) in *.
    destruct P as (P1 & P2 & P3 & P4 & P5 & P6 & P7 & P8 & P9).
    conjs; try assumption.
    rewrite P9, P7. reflexivity.
Defined.

(** C8 (as amended).  An empty table is not rejected.  The table loop is
    skipped, every pass takes its estimate from the fallbacks alone, and with
    usable samples [PE_Determine_Clock_Speeds] publishes a record built from
    such an estimate. *)
Theorem C8_empty_table_falls_through
  (run : nat -> clock_test_data) (g : globals) :
  (forall i, (i <= 10)%nat -> ticks_ok (run i)) ->
  (forall i g1, (i <= 10)%nat ->
     clock_test_body [] (run i) g1
     = Some (fallback (sample_raw (run i))
               (mk_globals 0 0 (sample_pll (run i))))) /\
  exists info m,
    (m <= 10)%nat /\
    PE_Determine_Clock_Speeds run [] g
    = Some (info, fallback (sample_raw (run m))
                    (mk_globals 0 0 (sample_pll (run m)))).
Proof.
  intros Ht. split.
  - intros i g1 Hi. apply body_no_match; [apply Ht; exact Hi | constructor].
  - destruct (determine_total run [] g Ht ltac:(constructor))
      as (info & g' & E).
    pose proof (determine_inv _ _ _ _ _ E) as (n & Hn & _).
    apply do_clock_test_inv in Hn. destruct Hn as (m & _ & Hm & -> & _).
    exists info, m. split; [exact Hm |].
    rewrite E. unfold estimate.
    rewrite (fit_no_match (sample_raw (run m)) []) by constructor.
    reflexivity.
Qed.

Lemma C8_witness :
  let run := fun _ : nat => mk_sample 5481 10000000 in
  (forall i g1, (i <= 10)%nat ->
     clock_test_body [] (run i) g1
     = Some (fallback (sample_raw (run i))
               (mk_globals 0 0 (sample_pll (run i))))) /\
  exists info m,
    (m <= 10)%nat /\
    PE_Determine_Clock_Speeds run [] (mk_globals 0 0 0)
    = Some (info, fallback (sample_raw (run m))
                    (mk_globals 0 0 (sample_pll (run m)))).
Proof.
  intros run.
  apply (C8_empty_table_falls_through run (mk_globals 0 0 0)).
  intros i _. split; vm_compute; discriminate.
Defined.

(** C8 as stated fails: with no table at all and the sample (via_ticks 5481,
    dec_ticks 10000000) on every call, the run is not refused.  The half-MHz
    fallback turns the raw speed 100005578 into 100000000 / 1, twice, and the
    record is published. *)
Lemma C8_counterexample :
  PE_Determine_Clock_Speeds (fun _ => mk_sample 5481 10000000) []
    (mk_globals 0 0 0)
  = Some (mk_info 100000000 50000000 25000000 100000000 1 1 2 1 4,
          mk_globals 100000000 1 1)
  /\ PE_Determine_Clock_Speeds (fun _ => mk_sample 5481 10000000) []
       (mk_globals 0 0 0) <> None.
Proof. split; vm_compute; [reflexivity | discriminate]. Qed.

(** ** The worked example of the specification *)

Lemma pll_mode_ten_million : pll_mode (Int.ulong 10000000) = 1.
Proof. vm_compute. reflexivity. Qed.

(** An estimate within 30000 of 100000000 is within tolerance of the table
    entry 100000000 / 1. *)
Lemma near_hundred_mhz (raw : Z) :
  Int.in_long raw ->
  Z.abs (100000000 - raw) < 30000 ->
  within_tolerance raw (100000000, 1) = true.
Proof.
  intros Hr Hd. unfold Int.in_long in Hr.
  apply within_tolerance_exact; unfold Int.in_long, kMaxFreqDiff; lia.
Qed.

(** C9 (as amended).  When every sample has [dec_ticks] 10000000 and a
    non-zero [via_ticks] that puts the raw bus speed less than 30000 away from
    100000000, and the table is [(100000000, 1)], the loop makes two passes --
    the first cannot stop, its numerator 100000000 differing from the 0 stored
    before the loop -- and the record published has bus rate 100000000 Hz and
    decrementer rate 25000000 Hz. *)
Theorem C9_hundred_mhz_example
  (run : nat -> clock_test_data) (g : globals) :
  (forall i, dec_ticks (run i) = 10000000 /\
             Int.ulong (via_ticks (run i)) <> 0 /\
             Z.abs (100000000 - sample_raw (run i)) < 30000) ->
  pe_do_clock_test run [(100000000, 1)] g
  = Some (mk_globals 100000000 1 1, 2%nat) /\
  exists info,
    PE_Determine_Clock_Speeds run [(100000000, 1)] g
    = Some (info, mk_globals 100000000 1 1) /\
    bus_clock_rate_hz info = 100000000 /\
    dec_clock_rate_hz info = 25000000.
Proof.
  intros H.
  assert (T : forall i, ticks_ok (run i)).
  { intros i. destruct (H i) as (Hd & Hv & _). split; [| exact Hv].
    rewrite Hd. vm_compute. discriminate. }
  assert (E : forall i, estimate [(100000000, 1)] (run i)
                        = mk_globals 100000000 1 1).
  { intros i. destruct (H i) as (Hd & _ & Hn).
    pose proof (body_first_match [] [] (100000000, 1) (run i) g (T i)
                  ltac:(constructor)
                  (near_hundred_mhz _ (long_in_range _) Hn)) as B.
    rewrite (body_estimate _ _ g (T i)) in B. simpl app in B.
    injection B as ->. unfold sample_pll. rewrite Hd.
    rewrite pll_mode_ten_million. reflexivity. }
  assert (D : pe_do_clock_test run [(100000000, 1)] g
              = Some (mk_globals 100000000 1 1, 2%nat)).
  { rewrite <- (E 1%nat). apply (do_clock_test_run run _ g 1).
    - lia.
    - intros i _. apply T.
    - intros i Hi. replace i with 0%nat by lia. rewrite E.
      cbn [last_bus_freq_at bus_freq_num]. discriminate.
    - intros _. cbn [last_bus_freq_at]. rewrite !E. reflexivity. }
  split; [exact D |].
  eexists. unfold PE_Determine_Clock_Speeds. rewrite D.
  conjs; reflexivity.
Qed.

Lemma C9_witness :
  pe_do_clock_test (fun _ => mk_sample 5481 10000000) [(100000000, 1)]
    (mk_globals 0 0 0)
  = Some (mk_globals 100000000 1 1, 2%nat) /\
  exists info,
    PE_Determine_Clock_Speeds (fun _ => mk_sample 5481 10000000)
      [(100000000, 1)] (mk_globals 0 0 0)
    = Some (info, mk_globals 100000000 1 1) /\
    bus_clock_rate_hz info = 100000000 /\
    dec_clock_rate_hz info = 25000000.
Proof.
  apply (C9_hundred_mhz_example
           (fun _ => mk_sample 5481 10000000) (mk_globals 0 0 0)).
  intros _. conjs.
  - reflexivity.
  - vm_compute. discriminate.
  - vm_compute. reflexivity.
Defined.

(** C9 as stated fails on the number of passes.  With [dec_ticks] 10000000
    and [via_ticks] 5481 on every call the raw bus speed is 100005578; the
    table entry is accepted in the first pass, but the loop needs a second
    pass to see the numerator repeated: [pe_run_clock_test] is called twice,
    not once. *)
Lemma C9_counterexample :
  let run := fun _ : nat => mk_sample 5481 10000000 in
  sample_raw (run 0%nat) = 100005578 /\
  pe_do_clock_test run [(100000000, 1)] (mk_globals 0 0 0)
  = Some (mk_globals 100000000 1 1, 2%nat) /\
  pe_do_clock_test run [(100000000, 1)] (mk_globals 0 0 0)
  <> Some (mk_globals 100000000 1 1, 1%nat).
Proof.
  cbv zeta. conjs.
  - vm_compute. reflexivity.
  - vm_compute. reflexivity.
  - vm_compute. discriminate.
Qed.

(** C10.  The published multiplier is the pll mode of the last sample taken,
    and the published cpu rate is computed from it and the final bus
    frequency; nothing about earlier samples' multipliers enters, and the loop
    test does not look at [cpu_pll].  Two runs over the same table that settle
    on the same bus frequency 100000000 / 1 -- they even share their first
    sample -- publish different cpu rates, 250000000 and 500000000, because
    their last samples have [dec_ticks] 1000000 and 500000. *)
Theorem C10_multiplier_comes_from_last_sample :
  (forall run l g info g',
     PE_Determine_Clock_Speeds run l g = Some (info, g') ->
     exists m,
       pe_do_clock_test run l g = Some (g', S m) /\
       bus_to_cpu_rate_num info = Int.ulong (sample_pll (run m)) /\
       bus_to_cpu_rate_den info = 2 /\
       cpu_clock_rate_hz info
       = Int.ulong
           (Int.ullong (Int.ullong (bus_freq_num g')
                        * Int.ullong (sample_pll (run m)))
            / Int.ullong (Int.mul (bus_freq_den g') 2))) /\
  (let l := [(100000000, 1)] in
   let run1 := fun _ : nat => mk_sample 31334 1000000 in
   let run2 := fun i : nat =>
     match i with O => mk_sample 31334 1000000 | _ => mk_sample 15667 500000 end in
   exists i1 i2 g1 g2,
     PE_Determine_Clock_Speeds run1 l (mk_globals 0 0 0) = Some (i1, g1) /\
     PE_Determine_Clock_Speeds run2 l (mk_globals 0 0 0) = Some (i2, g2) /\
     bus_clock_rate_num i1 = bus_clock_rate_num i2 /\
     bus_clock_rate_den i1 = bus_clock_rate_den i2 /\
     bus_clock_rate_hz i1 = bus_clock_rate_hz i2 /\
     cpu_clock_rate_hz i1 = 250000000 /\
     cpu_clock_rate_hz i2 = 500000000).
Proof.
  split.
  - intros run l g info g' H. apply determine_inv in H.
    destruct H as (n & Hn & Hr).
    pose proof (do_clock_test_inv run l g g' n Hn) as (m & -> & _ & Eg & _).
    exists m. split; [exact Hn |].
    apply report_fields in Hr.
    destruct Hr as (_ & _ & Hc & _ & _ & Hp & H2 & _).
    rewrite Hc, Hp, H2. rewrite Eg, estimate_pll. conjs; reflexivity.
  - cbv zeta. do 4 eexists. conjs; vm_compute; reflexivity.
Qed.

Lemma C10_witness :
  exists m,
    pe_do_clock_test
      (fun i : nat =>
         match i with O => mk_sample 31334 1000000 | _ => mk_sample 15667 500000 end)
      [(100000000, 1)] (mk_globals 0 0 0)
    = Some (mk_globals 100000000 1 10, S m) /\
    10 = Int.ulong
           (sample_pll
              (match m with O => mk_sample 31334 1000000 | _ => mk_sample 15667 500000 end)) /\
    2 = 2 /\
    500000000
    = Int.ulong
        (Int.ullong
           (Int.ullong 100000000
            * Int.ullong
                (sample_pll
                   (match m with O => mk_sample 31334 1000000 | _ => mk_sample 15667 500000 end)))
         / Int.ullong (Int.mul 1 2)).
Proof.
  apply (proj1 C10_multiplier_comes_from_last_sample
           (fun i : nat =>
              match i with O => mk_sample 31334 1000000 | _ => mk_sample 15667 500000 end)
           [(100000000, 1)] (mk_globals 0 0 0)
           (mk_info 100000000 500000000 25000000 100000000 1 10 2 1 4)
           (mk_globals 100000000 1 10)).
  vm_compute. reflexivity.
Defined.


(** * Further properties of the code *)

(** ** The pll mode *)

Lemma pll_mode_spec (dec : Z) :
  0 < dec ->
  pll_mode dec = (10000000 / dec + 1) / 2 /\
  0 <= pll_mode dec <= 5000000.
Proof.
  intros Hd. unfold pll_mode. cbv zeta.
  assert (Hp : 0 <= 10000000 / dec <= 10000000).
  { split; [apply Z.div_pos; lia |].
    apply Z.div_le_upper_bound; nia. }
  generalize dependent (10000000 / dec). intros p Hp.
  pose proof (Z.div_mod p 2 ltac:(lia)) as D.
  pose proof (Z.mod_pos_bound p 2 ltac:(lia)) as B.
  pose proof (Z.div_mod (p + 1) 2 ltac:(lia)) as D1.
  pose proof (Z.mod_pos_bound (p + 1) 2 ltac:(lia)) as B1.
  assert (E : Int.add (Int.div (Int.long p) 2) (Z.land (Int.long p) 1)
              = (p + 1) / 2).
  { rewrite (long_small p) by (unfold Int.in_long; lia).
    change 1 with (Z.ones 1) at 1. rewrite Z.land_ones by lia.
    change (2 ^ 1) with 2.
    unfold Int.div, Int.add. rewrite Z.quot_div_nonneg by lia.
    rewrite (long_small (p / 2)) by (unfold Int.in_long; lia).
    rewrite long_small by (unfold Int.in_long; lia).
    lia. }
  rewrite E. split; [reflexivity | lia].
Qed.

(** X1.  For a non-zero [dec_ticks], lines 113-114 leave in [cpu_pll] the
    quotient [10000000 / dec_ticks] halved and rounded up.  The value lies
    between 0 and 5000000, and it is 0 exactly when [dec_ticks] exceeds
    10000000. *)
Theorem X1_pll_mode_is_half_rounded_up (dec : Z) :
  0 < dec ->
  pll_mode dec = (10000000 / dec + 1) / 2 /\
  0 <= pll_mode dec <= 5000000 /\
  (pll_mode dec = 0 <-> 10000000 < dec).
Proof.
  intros Hd. destruct (pll_mode_spec dec Hd) as [E B].
  split; [exact E |]. split; [exact B |]. rewrite E.
  pose proof (Z.div_pos 10000000 dec ltac:(lia) Hd) as P.
  pose proof (Z.div_mod (10000000 / dec + 1) 2 ltac:(lia)) as D1.
  pose proof (Z.mod_pos_bound (10000000 / dec + 1) 2 ltac:(lia)) as B1.
  pose proof (Z.div_small_iff 10000000 dec ltac:(lia)) as S.
  split; intros H.
  - assert (Q : 10000000 / dec = 0) by lia. apply S in Q. lia.
  - assert (Q : 10000000 / dec = 0) by (apply S; lia). rewrite Q.
    reflexivity.
Qed.

Lemma X1_witness :
  pll_mode 1300 = (10000000 / 1300 + 1) / 2 /\
  0 <= pll_mode 1300 <= 5000000 /\
  (pll_mode 1300 = 0 <-> 10000000 < 1300).
Proof. apply (X1_pll_mode_is_half_rounded_up 1300). lia. Defined.

(** ** Zero denominators in the table *)

(** X2.  A table entry whose denominator is 0 is never within tolerance,
    whatever the raw speed, unless its numerator is the one [long] that has no
    negation (the pattern 0x80000000): such entries are skipped by the scan
    and cannot become the accepted bus frequency. *)
Theorem X2_zero_denominator_is_never_within_tolerance (raw n : Z) :
  Int.long n <> - 2 ^ 31 ->
  within_tolerance raw (n, 0) = false.
Proof.
  intros Hn. unfold within_tolerance, close_enough. cbn [fst snd].
  pose proof (long_in_range n) as R. unfold Int.in_long in R.
  generalize dependent (Int.long n). intros N Hn R.
  change (Int.long 0) with 0.
  unfold Int.mul. rewrite !Z.mul_0_r. change (Int.long 0) with 0.
  unfold Int.sub. rewrite Z.sub_0_r.
  rewrite (long_small N) by (unfold Int.in_long; lia).
  apply Z.ltb_ge. unfold Int.abs, Int.neg.
  destruct (N <? 0) eqn:E.
  - apply Z.ltb_lt in E. rewrite long_small by (unfold Int.in_long; lia). lia.
  - apply Z.ltb_ge in E. lia.
Qed.

Lemma X2_witness : within_tolerance 0 (0, 0) = false.
Proof.
  apply (X2_zero_denominator_is_never_within_tolerance 0 0).
  vm_compute. discriminate.
Defined.

(** ** No division by zero *)

(** X3.  When the first eleven samples have non-zero tick counts and every
    denominator of the table is a positive [long], no division of the run has
    a zero divisor -- neither those by the tick counts in the loop nor those
    by [bus_freq_den] and [bus_freq_den * 2] afterwards -- and a record is
    published. *)
Theorem X3_usable_inputs_always_publish
  (run : nat -> clock_test_data) (l : speed_table) (g : globals) :
  (forall i, (i <= 10)%nat -> ticks_ok (run i)) ->
  speed_list_ok l ->
  exists info m,
    (m <= 10)%nat /\
    PE_Determine_Clock_Speeds run l g = Some (info, estimate l (run m)) /\
    0 < bus_freq_den (estimate l (run m)) < 2 ^ 31.
Proof.
  intros Ht Hok.
  destruct (determine_total run l g Ht Hok) as (info & g' & E).
  pose proof (determine_inv _ _ _ _ _ E) as (n & Hn & _).
  apply do_clock_test_inv in Hn. destruct Hn as (m & _ & Hm & -> & _).
  exists info, m. conjs; auto; apply estimate_den_pos; exact Hok.
Qed.

Lemma X3_witness :
  exists info m,
    (m <= 10)%nat /\
    PE_Determine_Clock_Speeds (fun _ => mk_sample 5481 10000000)
      [(100000000, 1)] (mk_globals 0 0 0)
    = Some (info, estimate [(100000000, 1)] (mk_sample 5481 10000000)) /\
    0 < bus_freq_den (estimate [(100000000, 1)] (mk_sample 5481 10000000))
      < 2 ^ 31.
Proof.
  apply (X3_usable_inputs_always_publish
           (fun _ => mk_sample 5481 10000000) [(100000000, 1)]
           (mk_globals 0 0 0)).
  - intros i _. split; vm_compute; discriminate.
  - repeat constructor.
Defined.

(** ** What a run depends on *)

(** The body ignores the globals it finds. *)
Lemma body_ignores_globals (l : speed_table) (s : clock_test_data)
  (g g' : globals) :
  clock_test_body l s g = clock_test_body l s g'.
Proof.
  destruct (Z.eq_dec (Int.ulong (dec_ticks s)) 0) as [Ed | Ed].
  { unfold clock_test_body. cbv zeta. rewrite Ed. reflexivity. }
  destruct (Z.eq_dec (Int.ulong (via_ticks s)) 0) as [Ev | Ev].
  { unfold clock_test_body. cbv zeta. rewrite Ev.
    apply Z.eqb_neq in Ed. rewrite Ed. reflexivity. }
  rewrite (body_estimate l s g) by (split; assumption).
  rewrite (body_estimate l s g') by (split; assumption).
  reflexivity.
Qed.

(** The loop reads the globals only through [bus_freq_num], and the samples
    only up to call [calls + tries]. *)
Lemma loop_ext (run run' : nat -> clock_test_data) (l : speed_table)
  (tries k : nat) (g g' : globals) :
  (forall i, (i <= tries)%nat -> run (k + i)%nat = run' (k + i)%nat) ->
  bus_freq_num g = bus_freq_num g' ->
  clock_test_loop run l tries k g = clock_test_loop run' l tries k g'.
Proof.
  revert k g g'. induction tries as [| t IH]; intros k g g' Hr Hg.
  - cbn [clock_test_loop]. cbv zeta.
    pose proof (Hr 0%nat ltac:(lia)) as R0. rewrite Nat.add_0_r in R0.
    rewrite <- R0, <- Hg, (body_ignores_globals l (run k) g' g).
    reflexivity.
  - cbn [clock_test_loop]. cbv zeta.
    pose proof (Hr 0%nat ltac:(lia)) as R0. rewrite Nat.add_0_r in R0.
    rewrite <- R0, <- Hg, (body_ignores_globals l (run k) g' g).
    destruct (clock_test_body l (run k) g) as [g1 |]; [| reflexivity].
    destruct (bus_freq_num g1 =? bus_freq_num g); [reflexivity |].
    apply IH; [| reflexivity].
    intros i Hi. replace (S k + i)%nat with (k + S i)%nat by lia.
    apply Hr. lia.
Qed.

(** X4.  The outcome of [PE_Determine_Clock_Speeds] is a function of the
    table and of the first eleven samples alone: two runs whose providers
    agree on calls 0 to 10 give the same result, whatever the providers do
    later and whatever values an earlier call left in the three static
    globals. *)
Theorem X4_outcome_depends_on_first_eleven_samples_only
  (run run' : nat -> clock_test_data) (l : speed_table) (g g' : globals) :
  (forall i, (i <= 10)%nat -> run i = run' i) ->
  pe_do_clock_test run l g = pe_do_clock_test run' l g' /\
  PE_Determine_Clock_Speeds run l g = PE_Determine_Clock_Speeds run' l g'.
Proof.
  intros Hr.
  assert (E : pe_do_clock_test run l g = pe_do_clock_test run' l g').
  { unfold pe_do_clock_test. apply loop_ext; [exact Hr | reflexivity]. }
  split; [exact E |].
  unfold PE_Determine_Clock_Speeds. rewrite E. reflexivity.
Qed.

Lemma X4_witness :
  pe_do_clock_test (fun _ => mk_sample 5481 10000000) [(100000000, 1)]
    (mk_globals 0 0 0)
  = pe_do_clock_test
      (fun i => if (i <=? 10)%nat then mk_sample 5481 10000000
                else mk_sample 0 0)
      [(100000000, 1)] (mk_globals 7 0 9) /\
  PE_Determine_Clock_Speeds (fun _ => mk_sample 5481 10000000)
    [(100000000, 1)] (mk_globals 0 0 0)
  = PE_Determine_Clock_Speeds
      (fun i => if (i <=? 10)%nat then mk_sample 5481 10000000
                else mk_sample 0 0)
      [(100000000, 1)] (mk_globals 7 0 9).
Proof.
  apply (X4_outcome_depends_on_first_eleven_samples_only
           (fun _ => mk_sample 5481 10000000)
           (fun i => if (i <=? 10)%nat then mk_sample 5481 10000000
                     else mk_sample 0 0)
           [(100000000, 1)] (mk_globals 0 0 0) (mk_globals 7 0 9)).
  intros i Hi. apply Nat.leb_le in Hi. rewrite Hi. reflexivity.
Defined.

(** ** How many passes *)

(** X5.  Whatever the samples and the table, a run that finishes has called
    [pe_run_clock_test] at least once and at most eleven times, every sample
    it took had non-zero tick counts, and the globals it leaves are the
    estimate of the last sample taken: earlier samples only decide when the
    loop stops. *)
Theorem X5_between_one_and_eleven_calls
  (run : nat -> clock_test_data) (l : speed_table) (g g' : globals) (n : nat) :
  pe_do_clock_test run l g = Some (g', n) ->
  (1 <= n <= 11)%nat /\
  g' = estimate l (run (n - 1)%nat) /\
  (forall i, (i < n)%nat -> ticks_ok (run i)).
Proof.
  intros H. apply do_clock_test_inv in H.
  destruct H as (m & -> & Hm & -> & Ht & _).
  replace (S m - 1)%nat with m by lia. conjs; try lia; try reflexivity.
  intros i Hi. apply Ht. lia.
Qed.

Lemma X5_witness :
  (1 <= 2 <= 11)%nat /\
  mk_globals 50000000 1 31
  = estimate [(100000000, 1)] (mk_sample 10000 159569) /\
  (forall i, (i < 2)%nat ->
     ticks_ok (match i with
               | O => mk_sample 10000 53190
               | _ => mk_sample 10000 159569
               end)).
Proof.
  apply (X5_between_one_and_eleven_calls
           (fun i : nat => match i with
                           | O => mk_sample 10000 53190
                           | _ => mk_sample 10000 159569
                           end)
           [(100000000, 1)] (mk_globals 0 0 0)
           (mk_globals 50000000 1 31) 2%nat).
  vm_compute. reflexivity.
Defined.

(** X6.  The loop compares the first accepted numerator with the 0 stored
    before the loop.  Hence, when the first sample is usable, the run ends
    after a single pass exactly when that pass accepts the numerator 0; any
    other first estimate costs at least one more sample. *)
Theorem X6_single_pass_iff_first_numerator_zero
  (run : nat -> clock_test_data) (l : speed_table) (g : globals) :
  ticks_ok (run 0%nat) ->
  (exists g', pe_do_clock_test run l g = Some (g', 1%nat))
  <-> bus_freq_num (estimate l (run 0%nat)) = 0.
Proof.
  intros T. split.
  - intros [g' H]. apply do_clock_test_inv in H.
    destruct H as (m & Hm1 & _ & -> & _ & _ & Heq).
    assert (m = 0)%nat by lia. subst m.
    apply Heq. lia.
  - intros H0. exists (estimate l (run 0%nat)).
    apply (do_clock_test_run run l g 0).
    + lia.
    + intros i Hi. replace i with 0%nat by lia. exact T.
    + intros i Hi. lia.
    + intros _. exact H0.
Qed.

Lemma X6_witness :
  (exists g',
     pe_do_clock_test (fun _ => mk_sample 1000000 1) [(100000000, 1)]
       (mk_globals 0 0 0)
     = Some (g', 1%nat))
  <-> bus_freq_num (estimate [(100000000, 1)] (mk_sample 1000000 1)) = 0.
Proof.
  apply (X6_single_pass_iff_first_numerator_zero
           (fun _ => mk_sample 1000000 1) [(100000000, 1)] (mk_globals 0 0 0)).
  split; vm_compute; discriminate.
Defined.

(** X7.  When the first two samples are usable and their accepted
    numerators agree and are not 0, the loop stops after exactly two passes
    and leaves the estimate of the second sample.  In particular a provider
    that keeps returning the same sample is sampled twice. *)
Theorem X7_two_agreeing_samples_stop_the_loop
  (run : nat -> clock_test_data) (l : speed_table) (g : globals) :
  ticks_ok (run 0%nat) -> ticks_ok (run 1%nat) ->
  bus_freq_num (estimate l (run 0%nat)) <> 0 ->
  bus_freq_num (estimate l (run 1%nat))
  = bus_freq_num (estimate l (run 0%nat)) ->
  pe_do_clock_test run l g = Some (estimate l (run 1%nat), 2%nat).
Proof.
  intros T0 T1 Hne Heq. apply (do_clock_test_run run l g 1).
  - lia.
  - intros [| i] Hi; [exact T0 |]. replace i with 0%nat by lia. exact T1.
  - intros i Hi. replace i with 0%nat by lia. exact Hne.
  - intros _. exact Heq.
Qed.

Lemma X7_witness :
  pe_do_clock_test (fun _ => mk_sample 5481 10000000) [(100000000, 1)]
    (mk_globals 0 0 0)
  = Some (estimate [(100000000, 1)] (mk_sample 5481 10000000), 2%nat).
Proof.
  apply (X7_two_agreeing_samples_stop_the_loop
           (fun _ => mk_sample 5481 10000000) [(100000000, 1)]
           (mk_globals 0 0 0)).
  - split; vm_compute; discriminate.
  - split; vm_compute; discriminate.
  - vm_compute. discriminate.
  - reflexivity.
Defined.

(** ** The raw bus speed *)

(** X8.  As long as [dec_ticks] is at most 1403581 the 64-bit product of
    lines 118-119 does not wrap, and multiplying before dividing loses
    nothing: the raw bus speed is the integer part of
    [0xBF401675E5D * dec_ticks / (via_ticks * 2^22)], provided that value fits
    a [long]. *)
Theorem X8_raw_bus_speed_is_exact_quotient (via dec : Z) :
  0 < via ->
  0 <= dec <= 1403581 ->
  0xBF401675E5D * dec / (via * 2 ^ 22) < 2 ^ 31 ->
  raw_bus_speed via dec = 0xBF401675E5D * dec / (via * 2 ^ 22).
Proof.
  intros Hv Hd Hq. unfold raw_bus_speed, Int.ullong.
  rewrite (Z.mod_small (0xBF401675E5D * dec)) by lia.
  rewrite Z.shiftr_div_pow2 by lia.
  rewrite Z.div_div by lia.
  apply long_small. unfold Int.in_long.
  pose proof (Z.div_pos (0xBF401675E5D * dec) (via * 2 ^ 22)
                ltac:(lia) ltac:(lia)).
  lia.
Qed.

Lemma X8_witness :
  raw_bus_speed 31334 1000000
  = 0xBF401675E5D * 1000000 / (31334 * 2 ^ 22).
Proof.
  apply (X8_raw_bus_speed_is_exact_quotient 31334 1000000).
  - lia.
  - lia.
  - vm_compute. reflexivity.
Defined.

(** ** How far the accepted frequency is from the raw one *)

Lemma fallback_close (raw : Z) (g : globals) :
  0 <= raw <= 707494549 ->
  0 < bus_freq_den (fallback raw g) /\
  Z.abs (bus_freq_num (fallback raw g) - raw * bus_freq_den (fallback raw g))
  < 30000 * bus_freq_den (fallback raw g).
Proof.
  intros Hr.
  pose proof (half_mhz_diff raw ltac:(lia)) as D1.
  pose proof (half_mhz_guess_nearest raw ltac:(lia)) as G1.
  pose proof (fifty_thirds_diff raw Hr) as D2.
  pose proof (fifty_thirds_guess_nearest raw Hr) as G2.
  unfold fallback. cbv zeta. rewrite D1, D2, G1, G2.
  change (Int.mul kMaxFreqDiff 3) with 90000. unfold kMaxFreqDiff.
  generalize dependent (nearest_multiple 500000 raw).
  generalize dependent (nearest_multiple 50000000 (3 * raw)).
  intros m2 _ _ m1 _ _.
  destruct (Z.abs (m1 - raw) <? 30000) eqn:E1.
  { apply Z.ltb_lt in E1. cbn [set_bus_freq bus_freq_num bus_freq_den]. lia. }
  destruct (Z.abs (m2 - 3 * raw) <? 90000) eqn:E2.
  { apply Z.ltb_lt in E2. cbn [set_bus_freq bus_freq_num bus_freq_den]. lia. }
  cbn [set_bus_freq bus_freq_num bus_freq_den]. lia.
Qed.

(** X9.  For a raw bus speed between 0 and 707494549 and a table whose
    entries are small enough for the test of lines 129-132 not to wrap
    (numerator below 2^31, positive denominator [d] with
    [d * (raw + 30000) < 2^31]), whatever the pass accepts -- a table entry,
    a multiple of 500000, a multiple of 50000000 over 3 or the raw speed
    itself -- is a fraction [num / den] with [den > 0] and
    [|num - raw * den| < 30000 * den]: the accepted bus frequency is always
    less than 30000 Hz away from the raw one. *)
Theorem X9_accepted_frequency_is_near_raw
  (l : speed_table) (s : clock_test_data) :
  0 <= sample_raw s <= 707494549 ->
  Forall (fun e => 0 <= fst e < 2 ^ 31 /\ 0 < snd e /\
                   snd e * (sample_raw s + 30000) < 2 ^ 31) l ->
  0 < bus_freq_den (estimate l s) /\
  Z.abs (bus_freq_num (estimate l s)
         - sample_raw s * bus_freq_den (estimate l s))
  < 30000 * bus_freq_den (estimate l s).
Proof.
  intros Hr Hl. unfold estimate.
  generalize dependent (sample_raw s). intros raw Hr Hl.
  destruct (no_match_or_first raw l) as [Hn | Hx].
  - rewrite fit_no_match by assumption. apply fallback_close. exact Hr.
  - destruct (first_within_tolerance _ _ Hx) as (pre & [n d] & post & -> & Hp & He).
    rewrite fit_first_match by assumption.
    cbn [set_bus_freq bus_freq_num bus_freq_den fst snd].
    rewrite Forall_forall in Hl.
    specialize (Hl (n, d) ltac:(apply in_or_app; right; left; reflexivity)).
    cbn [fst snd] in Hl. destruct Hl as (Hn & Hd & Hm).
    assert (B1 : 0 <= raw * d < 2 ^ 31) by nia.
    assert (B2 : 0 < 30000 * d < 2 ^ 31) by nia.
    rewrite (long_small n) by (unfold Int.in_long; lia).
    rewrite (long_small d) by (unfold Int.in_long; lia).
    split; [exact Hd |].
    apply (within_tolerance_exact raw n d); unfold Int.in_long, kMaxFreqDiff;
      try lia.
    exact He.
Qed.

Lemma X9_witness :
  0 < bus_freq_den (estimate [(100000000, 1)] (mk_sample 10000 53190)) /\
  Z.abs (bus_freq_num (estimate [(100000000, 1)] (mk_sample 10000 53190))
         - sample_raw (mk_sample 10000 53190)
           * bus_freq_den (estimate [(100000000, 1)] (mk_sample 10000 53190)))
  < 30000 * bus_freq_den (estimate [(100000000, 1)] (mk_sample 10000 53190)).
Proof.
  apply (X9_accepted_frequency_is_near_raw
           [(100000000, 1)] (mk_sample 10000 53190)).
  - vm_compute. split; discriminate.
  - constructor; [| constructor]. vm_compute.
    repeat split; discriminate.
Defined.

(** ** The published cpu rate *)

(** X10.  When the run ends on a numerator that is not negative and a
    positive denominator below 2^30, the 64-bit product and the divisor of
    line 69 do not wrap: the published cpu rate is the integer quotient
    [bus_freq_num * cpu_pll / (2 * bus_freq_den)], cut to 32 bits only by the
    final conversion to [unsigned long]. *)
Theorem X10_cpu_rate_has_no_intermediate_overflow
  (run : nat -> clock_test_data) (l : speed_table) (g : globals)
  (info : clock_frequency_info) (g' : globals) :
  PE_Determine_Clock_Speeds run l g = Some (info, g') ->
  0 <= bus_freq_num g' ->
  0 < bus_freq_den g' < 2 ^ 30 ->
  0 <= cpu_pll g' <= 5000000 /\
  cpu_clock_rate_hz info
  = (bus_freq_num g' * cpu_pll g' / (2 * bus_freq_den g')) mod 2 ^ 32.
Proof.
  intros H Hn Hd. apply determine_inv in H. destruct H as (n & Hrun & Hr).
  pose proof (do_clock_test_inv run l g g' n Hrun)
    as (m & _ & _ & Eg & Ht & _).
  assert (Hp : 0 <= cpu_pll g' <= 5000000).
  { rewrite Eg, estimate_pll. unfold sample_pll.
    destruct (Ht m ltac:(lia)) as [Td _].
    pose proof (Z.mod_pos_bound (dec_ticks (run m)) (2 ^ 32) ltac:(lia)) as B.
    unfold Int.ulong in *.
    apply (pll_mode_spec (dec_ticks (run m) mod 2 ^ 32)). lia. }
  split; [exact Hp |].
  assert (In : Int.in_long (bus_freq_num g'))
    by (rewrite Eg; apply estimate_in_long).
  unfold Int.in_long in In.
  apply report_fields in Hr. destruct Hr as (_ & _ & Hc & _).
  rewrite Hc. clear Hc Eg Hrun Ht.
  generalize dependent (bus_freq_num g').
  generalize dependent (bus_freq_den g').
  generalize dependent (cpu_pll g').
  intros p Hp d Hd a Ha In.
  unfold Int.ullong, Int.ulong, Int.mul.
  rewrite (long_small (d * 2)) by (unfold Int.in_long; lia).
  rewrite (Z.mod_small a) by lia.
  rewrite (Z.mod_small p) by lia.
  rewrite (Z.mod_small (a * p)) by nia.
  rewrite (Z.mod_small (d * 2)) by lia.
  replace (d * 2) with (2 * d) by lia. reflexivity.
Qed.

Lemma X10_witness :
  0 <= 31 <= 5000000 /\
  775000000 = (50000000 * 31 / (2 * 1)) mod 2 ^ 32.
Proof.
  apply (X10_cpu_rate_has_no_intermediate_overflow
           (fun i : nat => match i with
                           | O => mk_sample 10000 53190
                           | _ => mk_sample 10000 159569
                           end)
           [(100000000, 1)] (mk_globals 0 0 0)
           (mk_info 50000000 775000000 12500000 50000000 1 31 2 1 4)
           (mk_globals 50000000 1 31)).
  - vm_compute. reflexivity.
  - simpl. lia.
  - simpl. lia.
Defined.

(** ** What the table contributes *)

Lemma find_first_match (raw : Z) (pre post : speed_table) (e : Z * Z) :
  Forall (fun x => within_tolerance raw x = false) pre ->
  within_tolerance raw e = true ->
  find (within_tolerance raw) (pre ++ e :: post) = Some e.
Proof.
  intros Hpre He. induction Hpre as [| x pre Hx _ IH]; simpl.
  - rewrite He. reflexivity.
  - rewrite Hx. exact IH.
Qed.

Lemma find_no_match (raw : Z) (l : speed_table) :
  Forall (fun x => within_tolerance raw x = false) l ->
  find (within_tolerance raw) l = None.
Proof.
  intros Hl. induction Hl as [| x l Hx _ IH]; simpl.
  - reflexivity.
  - rewrite Hx. exact IH.
Qed.

(** X11.  A pass uses the table only through its first entry within
    tolerance: replacing the table by that single entry, or by the empty
    table when no entry is within tolerance, leaves the estimate unchanged.
    Entries that are not within tolerance, and every entry after the first
    one that is, have no effect. *)
Theorem X11_only_first_matching_entry_matters
  (l : speed_table) (s : clock_test_data) :
  estimate l s
  = estimate (match find (within_tolerance (sample_raw s)) l with
              | Some e => [e]
              | None => []
              end) s.
Proof.
  unfold estimate. generalize (sample_raw s) (mk_globals 0 0 (sample_pll s)).
  intros raw g.
  destruct (no_match_or_first raw l) as [Hn | Hx].
  - rewrite (find_no_match raw l Hn).
    rewrite (fit_no_match raw l g Hn).
    rewrite (fit_no_match raw [] g) by constructor. reflexivity.
  - destruct (first_within_tolerance _ _ Hx) as (pre & e & post & -> & Hp & He).
    rewrite (find_first_match raw pre post e Hp He).
    rewrite (fit_first_match raw pre post e g Hp He).
    pose proof (fit_first_match raw [] [] e g ltac:(constructor) He) as F.
    cbn [app] in F. rewrite F. reflexivity.
Qed.

(** ** The 50/3 MHz fallback *)

(** X12.  For a raw bus speed between 0 and 707494549, a fallback result
    with denominator 3 has a numerator that is a multiple of 50000000 and not
    a multiple of 3: the fraction cannot be reduced to a whole number of Hz.
    (A multiple of 150000000 over 3 would be a multiple of 500000 within
    30000 of the raw speed, which the half-MHz test accepts first.) *)
Theorem X12_fifty_thirds_numerator_not_divisible_by_three
  (raw : Z) (g : globals) :
  0 <= raw <= 707494549 ->
  bus_freq_den (fallback raw g) = 3 ->
  (50000000 | bus_freq_num (fallback raw g)) /\
  ~ (3 | bus_freq_num (fallback raw g)).
Proof.
  intros Hr.
  pose proof (half_mhz_diff raw ltac:(lia)) as D1.
  pose proof (fifty_thirds_diff raw Hr) as D2.
  pose proof (fifty_thirds_guess_nearest raw Hr) as G2.
  unfold fallback. cbv zeta. rewrite D1, D2, G2.
  change (Int.mul kMaxFreqDiff 3) with 90000. unfold kMaxFreqDiff.
  destruct (Z.abs (nearest_multiple 500000 raw - raw) <? 30000) eqn:E1.
  { cbn [set_bus_freq bus_freq_den]. discriminate. }
  destruct (Z.abs (nearest_multiple 50000000 (3 * raw) - 3 * raw) <? 90000)
    eqn:E2.
  2:{ cbn [set_bus_freq bus_freq_den]. discriminate. }
  intros _. cbn [set_bus_freq bus_freq_num].
  apply Z.ltb_ge in E1. apply Z.ltb_lt in E2.
  split; [apply nearest_multiple_is_multiple |].
  intros [k Hk].
  destruct (nearest_multiple_is_multiple 50000000 (3 * raw)) as [q Hq].
  assert (exists j, q = 3 * j) as [j ->].
  { exists (16666667 * q - k). lia. }
  pose proof (nearest_multiple_nearest 500000 raw (100 * j) ltac:(lia)) as N.
  lia.
Qed.

Lemma X12_witness :
  (50000000 | bus_freq_num (fallback 16666797 (mk_globals 0 0 0))) /\
  ~ (3 | bus_freq_num (fallback 16666797 (mk_globals 0 0 0))).
Proof.
  apply (X12_fifty_thirds_numerator_not_divisible_by_three
           16666797 (mk_globals 0 0 0)).
  - lia.
  - vm_compute. reflexivity.
Defined.

(** ** A decrementer count above ten million *)

(** X13.  When the last sample taken has [dec_ticks] above 10000000, the
    quotient of line 113 is 0, so the pll mode is 0: the record is published
    with a bus-to-cpu numerator of 0 and a cpu rate of 0 Hz, whatever the bus
    frequency. *)
Theorem X13_slow_decrementer_publishes_zero_cpu_rate
  (run : nat -> clock_test_data) (l : speed_table) (g : globals)
  (info : clock_frequency_info) (g' : globals) (n : nat) :
  PE_Determine_Clock_Speeds run l g = Some (info, g') ->
  pe_do_clock_test run l g = Some (g', n) ->
  10000000 < Int.ulong (dec_ticks (run (n - 1)%nat)) ->
  bus_to_cpu_rate_num info = 0 /\ cpu_clock_rate_hz info = 0.
Proof.
  intros H Hrun Hd. apply determine_inv in H. destruct H as (n' & _ & Hr).
  pose proof (do_clock_test_inv run l g g' n Hrun) as (m & -> & _ & Eg & _).
  replace (S m - 1)%nat with m in Hd by lia.
  assert (Hp : cpu_pll g' = 0).
  { rewrite Eg, estimate_pll. unfold sample_pll.
    destruct (pll_mode_spec (Int.ulong (dec_ticks (run m))) ltac:(lia))
      as [E _].
    rewrite E. rewrite (Z.div_small 10000000) by lia. reflexivity. }
  apply report_fields in Hr. destruct Hr as (_ & _ & Hc & _ & _ & Hb & _).
  rewrite Hc, Hb, Hp. split; [reflexivity |].
  change (Int.ullong 0) with 0. rewrite Z.mul_0_r.
  change (Int.ullong 0) with 0. rewrite Zdiv_0_l. reflexivity.
Qed.

Lemma X13_witness :
  bus_to_cpu_rate_num (mk_info 219252229 0 54813057 219252229 1 0 2 1 4) = 0 /\
  cpu_clock_rate_hz (mk_info 219252229 0 54813057 219252229 1 0 2 1 4) = 0.
Proof.
  apply (X13_slow_decrementer_publishes_zero_cpu_rate
           (fun _ => mk_sample 5000 20000000) [(100000000, 1)]
           (mk_globals 0 0 0)
           (mk_info 219252229 0 54813057 219252229 1 0 2 1 4)
           (mk_globals 219252229 1 0) 2%nat).
  - vm_compute. reflexivity.
  - vm_compute. reflexivity.
  - vm_compute. reflexivity.
Defined.
